(* ===================================================================== *)
(* hybrid_model.py: HybridRecommendationSystem_Custom                     *)
(*                                                                       *)
(* A shallow embedding of the hybrid scorer (predict / recommend) and of *)
(* the two Python builtins it relies on: sorted(..., key=, reverse=True) *)
(* and the slice [:top_n].                                               *)
(*                                                                       *)
(* Modelling choices                                                     *)
(*  - Scores and weights are elements of an arbitrary totally ordered    *)
(*    ring (realDomainType): the operations the code uses are the        *)
(*    literal 0, *, + and, inside sorted, <. IEEE special values (NaN,   *)
(*    infinities, signed zeros) are not part of this model.              *)
(*  - top_n is a Python int, hence MathComp's int (Posz n / Negz n).     *)
(*  - A method of the class is a function of the attribute record self   *)
(*    that returns an outcome together with the attribute record after   *)
(*    the call (explicit state passing).                                 *)
(*  - Exn is the type of the instances of Python's Exception class, the  *)
(*    ones the handler "except Exception" of recommend matches. The      *)
(*    module Guarded adds the raised values that are not instances of    *)
(*    Exception (KeyboardInterrupt, SystemExit), which that handler lets *)
(*    through, and gives the loop and recommend with the class test.     *)
(*  - The two sub-scorers are read as oracles: their predict is a        *)
(*    function of (user_id, item_id) to an outcome. An attribute left at *)
(*    its default None is the only falsy value of cf_model / cb_model.   *)
(*  - fit forwards to the fit methods of the sub-scorers, which are      *)
(*    parameters; a sub-scorer fitted in place is the new value of its   *)
(*    attribute.                                                         *)
(*  - app.py, fetch_recommendations: frames are lists of rows, and        *)
(*    merge(on="book_id", how="left") is the left join that keeps the     *)
(*    order of the left rows. The book_id column of the catalog holds     *)
(*    Python ints, on which int(bid) is the identity; float(scr) is a     *)
(*    parameter that returns a float or raises.                          *)
(*  - book_dashboard.py, get_recommendations: pt enters through pt.index, *)
(*    similarities is a list of rows, indexing out of bounds raises       *)
(*    IndexError, and round(., 4) is a parameter.                        *)
(* ===================================================================== *)

From HB Require Import structures.
From mathcomp Require Import ssreflect ssrfun ssrbool eqtype ssrnat seq path.
From mathcomp Require Import order ssralg ssrnum ssrint rat.

Set Implicit Arguments.
Unset Strict Implicit.
Unset Printing Implicit Defensive.

Import Order.TTheory GRing.Theory Num.Theory.

(* --------------------------------------------------------------------- *)
(* Python builtins                                                        *)
(* --------------------------------------------------------------------- *)

Module Py.

Section Slice.
Variable T : Type.

(* s[:n]: a negative stop counts from the end, and both ends are clamped
   to [0, len s]. *)
Definition slice_to (n : int) (s : seq T) : seq T :=
  match n with
  | Posz k => take k s
  | Negz k => take (size s - k.+1) s
  end.

End Slice.

Section Sorted.
Variables (d : Order.disp_t) (K : orderType d) (T : Type).
Variable key : T -> K.

(* list.sort is a stable sort that compares keys with < only; it is
   rendered here by stable insertion. One step: the element x enters the
   already sorted prefix in front of the first element whose key is
   strictly greater than its own, that is, behind every element it is not
   smaller than. *)
Fixpoint binsert (x : T) (s : seq T) : seq T :=
  if s is y :: s' then
    if (key x < key y)%O then x :: s else y :: binsert x s'
  else [:: x].

(* list.sort(key=key): the elements enter the sorted prefix from left to
   right. *)
Definition list_sort (s : seq T) : seq T :=
  foldl (fun acc x => binsert x acc) [::] s.

(* sorted(s, key=key, reverse=reverse): with reverse set, the list is
   reversed, sorted in ascending order, and reversed again. *)
Definition sorted (reverse : bool) (s : seq T) : seq T :=
  if reverse then rev (list_sort (rev s)) else list_sort s.

End Sorted.

End Py.

Section KeyOrder.
Variables (d : Order.disp_t) (K : orderType d) (T : Type).
Variable key : T -> K.

(* Ascending and descending order on keys. *)
Definition key_le : rel T := fun x y => (key x <= key y)%O.
Definition key_ge : rel T := fun x y => (key y <= key x)%O.

(* The elements whose key is k. *)
Definition has_key (k : K) : pred T := fun x => key x == k.

End KeyOrder.

(* --------------------------------------------------------------------- *)
(* Outcomes and methods                                                   *)
(* --------------------------------------------------------------------- *)

Section Outcome.
Variable Exn : Type.

Inductive outcome (A : Type) : Type :=
  | Return of A
  | Raise of Exn.

Arguments Raise {A} e.

Definition returned A (o : outcome A) : option A :=
  if o is Return a then Some a else None.

Variable Self : Type.

(* A method body: from the attributes of self to an outcome and the
   attributes after the call. *)
Definition method (A : Type) : Type := Self -> outcome A * Self.

Definition ret A (a : A) : method A := fun self => (Return a, self).

Definition bind A B (m : method A) (k : A -> method B) : method B :=
  fun self =>
    match m self with
    | (Return a, self') => k a self'
    | (Raise e, self') => (Raise e, self')
    end.

(* Reading an attribute of self. *)
Definition getattr A (field : Self -> A) : method A :=
  fun self => (Return (field self), self).

(* Calling a collaborator that does not touch the attributes of self. *)
Definition call A (o : outcome A) : method A := fun self => (o, self).

(* try: body / except Exception: handler, when every raised value is an
   instance of Exception (the type Exn); Guarded.try_except below is the
   handler with the class test. *)
Definition try_except A (body : method A) (handler : Exn -> method A)
  : method A :=
  fun self =>
    match body self with
    | (Return a, self') => (Return a, self')
    | (Raise e, self') => handler e self'
    end.

(* for x in xs: acc = body acc x *)
Fixpoint for_each A B (xs : seq A) (body : B -> A -> method B) (acc : B)
  : method B :=
  if xs is x :: xs' then bind (body acc x) (for_each xs' body)
  else ret acc.

End Outcome.

Arguments Raise {Exn A} e.
Arguments Return {Exn A} a.
Arguments ret {Exn Self A} a.
Arguments bind {Exn Self A B} m k.
Arguments getattr {Exn Self A} field.
Arguments call {Exn Self A} o.
Arguments try_except {Exn Self A} body handler.
Arguments for_each {Exn Self A B} xs body acc.

Declare Scope method_scope.
Delimit Scope method_scope with method.
Notation "x <~ m ;; k" := (bind m (fun x => k))
  (at level 61, m at next level, right associativity) : method_scope.

(* --------------------------------------------------------------------- *)
(* class HybridRecommendationSystem_Custom                                *)
(* --------------------------------------------------------------------- *)

Section Hybrid.
Variables (User : Type) (Item : eqType) (R : realDomainType) (Exn : Type).

Local Open Scope ring_scope.

(* What cf_model.predict returns: an object read through its .est. *)
Record Prediction : Type := mkPrediction { est : R }.

(* The attributes set by __init__. *)
Record HybridRecommendationSystem_Custom : Type := mkHybrid {
  cf_model : option (User -> Item -> outcome Exn Prediction);
  cb_model : option (User -> Item -> outcome Exn R);
  weights : R * R
}.

Notation self_t := HybridRecommendationSystem_Custom.
Notation M := (method Exn self_t).

Local Open Scope method_scope.

Definition predict (user_id : User) (item_id : Item) : M R :=
  cf <~ getattr cf_model ;;
  score_cf <~ (if cf is Some m
               then p <~ call (m user_id item_id) ;; ret (est p)
               else ret 0) ;;
  cb <~ getattr cb_model ;;
  score_cb <~ (if cb is Some m
               then call (m user_id item_id)
               else ret 0) ;;
  w <~ getattr weights ;;
  ret (w.1 * score_cf + w.2 * score_cb).

(* The body of the loop of recommend, for one candidate. *)
Definition try_score (user_id : User) (scored_items : seq (Item * R))
  (item_id : Item) : M (seq (Item * R)) :=
  try_except
    (score <~ predict user_id item_id ;;
     ret (rcons scored_items (item_id, score)))
    (fun _ => ret scored_items).

(* The loop of recommend: the list scored_items once the loop is over. *)
Definition score_candidates (user_id : User) (items : seq Item)
  : M (seq (Item * R)) :=
  for_each items (try_score user_id) [::].

Definition recommend (user_id : User) (items : seq Item) (top_n : int)
  : M (seq (Item * R)) :=
  scored_items <~ score_candidates user_id items ;;
  ret (Py.slice_to top_n (Py.sorted (fun x => x.2) true scored_items)).

(* Specification side: the score of an item when predict returns one, and
   the surviving (item, score) pairs of a candidate list, in the order of
   the candidates. *)
Definition score_of (self : self_t) (user_id : User) (item_id : Item)
  : option R :=
  returned (predict user_id item_id self).1.

Definition survivors (self : self_t) (user_id : User) (items : seq Item)
  : seq (Item * R) :=
  pmap (fun item_id => omap (pair item_id) (score_of self user_id item_id))
       items.

End Hybrid.

Arguments mkHybrid {User Item R Exn} cf_model cb_model weights.
Arguments predict {User Item R Exn} user_id item_id _.
Arguments try_score {User Item R Exn} user_id scored_items item_id _.
Arguments score_candidates {User Item R Exn} user_id items _.
Arguments recommend {User Item R Exn} user_id items top_n _.
Arguments score_of {User Item R Exn} self user_id item_id.
Arguments survivors {User Item R Exn} self user_id items.

(* --------------------------------------------------------------------- *)
(* Concrete configurations, used to run the statements                    *)
(* --------------------------------------------------------------------- *)

Module Demo.

Inductive user := alice.

Inductive exn := PredictionError.

Local Open Scope ring_scope.

(* A collaborative sub-scorer over rational scores that does not know
   item 7, rates item 2 at 0.9 and every other item at 0.4. *)
Definition cf (u : user) (i : nat) : outcome exn (Prediction rat) :=
  if i == 7%N then Raise PredictionError
  else Return (mkPrediction (if i == 2%N then 9%:Q / 10%:Q
                             else 4%:Q / 10%:Q)).

(* A content-based sub-scorer that rates every item at 1/2, and one that
   knows no item. *)
Definition cb (u : user) (i : nat) : outcome exn rat :=
  Return (1%:Q / 2%:Q).

Definition cb_unknown (u : user) (i : nat) : outcome exn rat :=
  Raise PredictionError.

(* Only the collaborative sub-scorer, with its score taken as it is. *)
Definition cf_only : HybridRecommendationSystem_Custom user nat rat exn :=
  mkHybrid (Some cf) None (1, 0).

(* A sub-scorer over integer scores that rates an item by its number. *)
Definition cf_id (u : user) (i : nat) : outcome exn (Prediction int) :=
  Return (mkPrediction (Posz i)).

Definition by_number : HybridRecommendationSystem_Custom user nat int exn :=
  mkHybrid (Some cf_id) None (1, 0).



End Demo.

(* --------------------------------------------------------------------- *)
(* except Exception: raised values that are not instances of Exception   *)
(* --------------------------------------------------------------------- *)

(* The handler of recommend is "except Exception": a raised value whose
   class derives from BaseException and not from Exception passes it.
   The module below makes that class test part of the model: the
   sub-scorers raise either an instance of Exception or one of the other
   values, predict is the predict above at that type of raised values,
   and the loop and recommend go through the guarded handler. On
   sub-scorers that raise instances of Exception only, the two models
   agree (lemma recommend_lift below). *)

Module Guarded.

(* The classes that derive from BaseException directly. *)
Inductive base_exception : Type :=
  | KeyboardInterrupt
  | SystemExit
  | GeneratorExit
  | OtherBaseException.

Section Handler.
Variable Exn : Type.

(* What a call can raise. *)
Inductive raised : Type :=
  | OfException of Exn
  | NotException of base_exception.

Variable Self : Type.

(* try: body / except Exception: handler. The handler takes the
   instances of Exception; any other raised value goes on. *)
Definition try_except A (body : method raised Self A)
  (handler : Exn -> method raised Self A) : method raised Self A :=
  fun self =>
    match body self with
    | (Return a, self') => (Return a, self')
    | (Raise (OfException e), self') => handler e self'
    | (Raise (NotException b), self') => (Raise (NotException b), self')
    end.

End Handler.

Arguments OfException {Exn} e.
Arguments NotException {Exn} b.
Arguments try_except {Exn Self A} body handler.

Section Recommend.
Variables (User : Type) (Item : eqType) (R : realDomainType) (Exn : Type).

Notation self_t := (HybridRecommendationSystem_Custom User Item R (raised Exn)).
Notation M := (method (raised Exn) self_t).

Local Open Scope method_scope.

(* The body of the loop of recommend, for one candidate. *)
Definition try_score (user_id : User) (scored_items : seq (Item * R))
  (item_id : Item) : M (seq (Item * R)) :=
  try_except
    (score <~ predict user_id item_id ;;
     ret (rcons scored_items (item_id, score)))
    (fun _ => ret scored_items).

Definition score_candidates (user_id : User) (items : seq Item)
  : M (seq (Item * R)) :=
  for_each items (try_score user_id) [::].

Definition recommend (user_id : User) (items : seq Item) (top_n : int)
  : M (seq (Item * R)) :=
  scored_items <~ score_candidates user_id items ;;
  ret (Py.slice_to top_n (Py.sorted (fun x => x.2) true scored_items)).

(* Specification side: the value that is not an instance of Exception
   which scoring an item raises, if it raises one, and the first such
   value along a candidate list. *)
Definition escape (self : self_t) (user_id : User) (item_id : Item)
  : option base_exception :=
  if (predict user_id item_id self).1 is Raise (NotException b)
  then Some b else None.

Definition first_escape (self : self_t) (user_id : User) (items : seq Item)
  : option base_exception :=
  ohead (pmap (escape self user_id) items).

(* A scorer whose sub-scorers raise instances of Exception only, seen as
   a scorer of this module. *)
Definition lift_outcome A (o : outcome Exn A) : outcome (raised Exn) A :=
  match o with
  | Return a => Return a
  | Raise e => Raise (OfException e)
  end.

Definition lift_scorer
  (self : HybridRecommendationSystem_Custom User Item R Exn) : self_t :=
  mkHybrid
    (omap (fun m user_id item_id => lift_outcome (m user_id item_id))
          (cf_model self))
    (omap (fun m user_id item_id => lift_outcome (m user_id item_id))
          (cb_model self))
    (weights self).

End Recommend.

Arguments try_score {User Item R Exn} user_id scored_items item_id _.
Arguments score_candidates {User Item R Exn} user_id items _.
Arguments recommend {User Item R Exn} user_id items top_n _.
Arguments escape {User Item R Exn} self user_id item_id.
Arguments first_escape {User Item R Exn} self user_id items.
Arguments lift_outcome {Exn A} o.
Arguments lift_scorer {User Item R Exn} self.

Local Open Scope ring_scope.

(* Collaborative sub-scorers over rational scores that rate item 2 at 0.9
   and every other item at 0.4, except item 7: for the first, scoring it
   is interrupted from the keyboard; for the second, it raises a
   PredictionError. *)
Definition cf_interrupted (u : Demo.user) (i : nat)
  : outcome (raised Demo.exn) (Prediction rat) :=
  if i == 7%N then Raise (NotException KeyboardInterrupt)
  else Return (mkPrediction (if i == 2%N then 9%:Q / 10%:Q
                             else 4%:Q / 10%:Q)).

Definition interrupted
  : HybridRecommendationSystem_Custom Demo.user nat rat (raised Demo.exn) :=
  mkHybrid (Some cf_interrupted) None (1, 0).

Definition cf_unknown (u : Demo.user) (i : nat)
  : outcome (raised Demo.exn) (Prediction rat) :=
  if i == 7%N then Raise (OfException Demo.PredictionError)
  else Return (mkPrediction (if i == 2%N then 9%:Q / 10%:Q
                             else 4%:Q / 10%:Q)).

Definition unknown
  : HybridRecommendationSystem_Custom Demo.user nat rat (raised Demo.exn) :=
  mkHybrid (Some cf_unknown) None (1, 0).

End Guarded.

(* --------------------------------------------------------------------- *)
(* hybrid_model.py: fit                                                   *)
(* --------------------------------------------------------------------- *)

Section Fit.
Variables (User : Type) (Item : eqType) (R : realDomainType) (Exn : Type).
Variable X : Type.

Notation self_t := (HybridRecommendationSystem_Custom User Item R Exn).
Notation cf_t := (User -> Item -> outcome Exn (Prediction R)).
Notation cb_t := (User -> Item -> outcome Exn R).

(* The fit methods of the two sub-scorers: the outcome of the call and
   the sub-scorer it leaves behind (it works in place, also when it
   raises). *)
Variable cf_fit : X -> cf_t -> outcome Exn unit * cf_t.
Variable cb_fit : X -> cb_t -> outcome Exn unit * cb_t.

(* self.cf_model.fit(X) and self.cb_model.fit(X): the object held by the
   attribute is the one that changes. *)
Definition fit_cf_model (x : X) (m : cf_t) : method Exn self_t unit :=
  fun self =>
    let: (o, m') := cf_fit x m in
    (o, mkHybrid (Some m') (cb_model self) (weights self)).

Definition fit_cb_model (x : X) (m : cb_t) : method Exn self_t unit :=
  fun self =>
    let: (o, m') := cb_fit x m in
    (o, mkHybrid (cf_model self) (Some m') (weights self)).

Local Open Scope method_scope.

Definition fit (x : X) : method Exn self_t unit :=
  cf <~ getattr (fun self : self_t => cf_model self) ;;
  fitted_cf <~ (if cf is Some m then fit_cf_model x m else ret tt) ;;
  cb <~ getattr (fun self : self_t => cb_model self) ;;
  fitted_cb <~ (if cb is Some m then fit_cb_model x m else ret tt) ;;
  ret tt.

End Fit.

Arguments fit {User Item R Exn X} cf_fit cb_fit x _.

(* --------------------------------------------------------------------- *)
(* app.py: fetch_recommendations                                          *)
(* --------------------------------------------------------------------- *)

Section App.
Variables (User : Type) (R : realDomainType) (Exn : Type).
Variables (F Title Authors : eqType).

(* float(scr): the float of a score, or what the conversion raises. *)
Variable py_float : R -> outcome Exn F.

(* int(bid) for a book_id that is an int: the int itself. *)
Definition py_int (bid : int) : int := bid.

(* A row of books_df[["book_id", "title", "authors"]], for a catalog
   whose book_id column holds integers. *)
Record catalog_row : Type := mkCatalogRow {
  book_id : int;
  title : Title;
  authors : Authors
}.

(* A row of the frame that fetch_recommendations returns; the columns
   that come from the catalog are missing (NaN) when the left join finds
   no catalog row. *)
Record rec_row : Type := mkRecRow {
  rec_book_id : int;
  rec_score : F;
  rec_title : option Title;
  rec_authors : option Authors
}.

(* The row carries the title and the authors of a catalog row that has
   its book_id. *)
Definition row_joined (books : seq catalog_row) (r : rec_row) : bool :=
  has (fun b => [&& book_id b == rec_book_id r,
                    rec_title r == Some (title b)
                  & rec_authors r == Some (authors b)]) books.

(* The columns book_id and score of a frame row are those of the left
   row. *)
Definition from_left (p : int * F) : pred rec_row :=
  fun r => (rec_book_id r == p.1) && (rec_score r == p.2).

(* [f(x) for x in xs], for an f that can raise. *)
Fixpoint comprehension A B (f : A -> outcome Exn B) (xs : seq A)
  : outcome Exn (seq B) :=
  if xs is x :: xs' then
    match f x with
    | Return y =>
        match comprehension f xs' with
        | Return ys => Return (y :: ys)
        | Raise e => Raise e
        end
    | Raise e => Raise e
    end
  else Return [::].

(* {"book_id": int(bid), "score": float(scr)} *)
Definition row_dict (rec : int * R) : outcome Exn (int * F) :=
  match py_float rec.2 with
  | Return scr => Return (py_int rec.1, scr)
  | Raise e => Raise e
  end.

(* The rows that one left row contributes to
   df.merge(books, on="book_id", how="left"). *)
Definition merge_row (books : seq catalog_row) (r : int * F)
  : seq rec_row :=
  let matches := [seq b <- books | book_id b == r.1] in
  if matches is [::] then [:: mkRecRow r.1 r.2 None None]
  else [seq mkRecRow r.1 r.2 (Some (title b)) (Some (authors b))
       | b <- matches].

(* The left join: the left rows in their order, each with its matching
   catalog rows in the order of the catalog. *)
Definition merge_left (rows : seq (int * F)) (books : seq catalog_row)
  : seq rec_row :=
  flatten [seq merge_row books r | r <- rows].

Local Open Scope method_scope.

(* fetch_recommendations on an instance of the class of hybrid_model.py,
   which has a recommend method and no get_hybrid_recommendations;
   pd.DataFrame() is the frame without rows. *)
Definition fetch_recommendations (user_id : User)
  (books_df : seq catalog_row) (top_n : int)
  : method Exn (HybridRecommendationSystem_Custom User int R Exn)
      (seq rec_row) :=
  let items := [seq book_id b | b <- books_df] in
  recommendations <~ recommend user_id items top_n ;;
  if 0 < size recommendations then
    rows <~ call (comprehension row_dict recommendations) ;;
    ret (merge_left rows books_df)
  else ret [::].

End App.

Arguments mkCatalogRow {Title Authors} book_id title authors.
Arguments mkRecRow {F Title Authors}.
Arguments row_joined {F Title Authors} books r.
Arguments from_left {F Title Authors} p r.
Arguments comprehension {Exn A B} f xs.
Arguments row_dict {R Exn F} py_float rec.
Arguments merge_row {F Title Authors} books r.
Arguments merge_left {F Title Authors} rows books.
Arguments fetch_recommendations {User R Exn F Title Authors}
  py_float user_id books_df top_n _.

(* --------------------------------------------------------------------- *)
(* book_dashboard.py: get_recommendations                                 *)
(* --------------------------------------------------------------------- *)

Module PySeq.

(* What indexing a list, an array or an Index out of its bounds raises. *)
Inductive exception := IndexError.

Section Indexing.
Variable T : Type.

(* s[i] for a position i >= 0. *)
Fixpoint getitem (s : seq T) (i : nat) : outcome exception T :=
  match s, i with
  | [::], _ => Raise IndexError
  | x :: _, 0 => Return x
  | _ :: s', i'.+1 => getitem s' i'
  end.

(* A slice bound brought into [0, len]: a negative bound counts from the
   end. *)
Definition bound (n : int) (len : nat) : nat :=
  match n with
  | Posz k => minn k len
  | Negz k => len - k.+1
  end.

(* s[start:stop] *)
Definition slice (start stop : int) (s : seq T) : seq T :=
  drop (bound start (size s)) (take (bound stop (size s)) s).

(* list(enumerate(s)) *)
Definition enumerate (s : seq T) : seq (nat * T) :=
  zip (iota 0 (size s)) s.

End Indexing.

End PySeq.

Section BookDashboard.
Variables (Book : eqType) (R : realDomainType).

(* round(x, 4) *)
Variable round4 : R -> R.

(* The dict {'book': ..., 'similarity': ...}. *)
Record suggestion : Type := mkSuggestion { book : Book; similarity : R }.

(* The loop that fills the list recommendations. *)
Fixpoint collect (pt_index : seq Book) (similar_books_list : seq (nat * R))
  (recommendations : seq suggestion)
  : outcome PySeq.exception (seq suggestion) :=
  if similar_books_list is (book_idx, similarity_score) :: rest then
    match PySeq.getitem pt_index book_idx with
    | Return b =>
        collect pt_index rest
          (rcons recommendations (mkSuggestion b (round4 similarity_score)))
    | Raise e => Raise e
    end
  else Return recommendations.

(* pt enters through pt.index only; similarities is the array of rows;
   the result None is Python's None. *)
Definition get_recommendations (book_name : Book) (pt_index : seq Book)
  (similarities : seq (seq R)) (num_recommendations : int)
  : outcome PySeq.exception (option (seq suggestion)) :=
  if book_name \in pt_index then
    let idx := index book_name pt_index in
    match PySeq.getitem similarities idx with
    | Return row =>
        let similar_books_list :=
          PySeq.slice 1 (num_recommendations + 1)%R
            (Py.sorted (fun x => x.2) true (PySeq.enumerate row)) in
        match collect pt_index similar_books_list [::] with
        | Return recommendations => Return (Some recommendations)
        | Raise e => Raise e
        end
    | Raise e => Raise e
    end
  else Return None.

End BookDashboard.

Arguments mkSuggestion {Book R} book similarity.
Arguments collect {Book R} round4 pt_index similar_books_list recommendations.
Arguments get_recommendations {Book R} round4 book_name pt_index
  similarities num_recommendations.

(* --------------------------------------------------------------------- *)
(* Concrete data for the two dashboards                                   *)
(* --------------------------------------------------------------------- *)

Module Shelf.

Local Open Scope ring_scope.

(* A catalog with distinct identifiers, titles and authors as codes, and
   one in which book 1 has two rows. *)
Definition books : seq (catalog_row nat nat) :=
  [:: mkCatalogRow 1 11%N 21%N; mkCatalogRow 2 12%N 22%N;
      mkCatalogRow 3 13%N 23%N].

Definition books_twice : seq (catalog_row nat nat) :=
  [:: mkCatalogRow 1 11%N 21%N; mkCatalogRow 2 12%N 22%N;
      mkCatalogRow 1 13%N 23%N].

(* A scorer over integer identifiers and integer scores that rates a book
   by its identifier, and the conversion of such a score to a float. *)
Definition cf_number (u : Demo.user) (i : int)
  : outcome Demo.exn (Prediction int) :=
  Return (mkPrediction i).

Definition by_id
  : HybridRecommendationSystem_Custom Demo.user int int Demo.exn :=
  mkHybrid (Some cf_number) None (1, 0).

Definition float_of_int (x : int) : outcome Demo.exn rat := Return x%:Q.

(* Three books and their similarities, scaled to integers; in the second
   array book 0 is closer to book 1 than book 1 is to itself. *)
Definition pt_index : seq nat := [:: 0; 1; 2]%N.

Definition similarities : seq (seq int) :=
  [:: [:: 10; 3; 7]; [:: 3; 10; 5]; [:: 7; 5; 10]].

Definition outranked : seq (seq int) :=
  [:: [:: 10; 3; 7]; [:: 12; 10; 5]; [:: 7; 5; 10]].

(* Sub-scorer fits: one that succeeds and leaves the sub-scorer as it is,
   one that raises. *)
Definition fit_ok (A : Type) (x : unit) (m : A) : outcome Demo.exn unit * A :=
  (Return tt, m).

Definition fit_raises (A : Type) (x : unit) (m : A)
  : outcome Demo.exn unit * A :=
  (Raise Demo.PredictionError, m).

End Shelf.

(* --------------------------------------------------------------------- *)
(* Facts about the builtins                                               *)
(* --------------------------------------------------------------------- *)

Section SliceFacts.
Variable T : Type.
Implicit Types (s : seq T) (n : int).

Lemma slice_to_nat (k : nat) s : Py.slice_to k s = take k s.
Proof. by []. Qed.

Lemma slice_to_prefix n s : exists m : nat, Py.slice_to n s = take m s.
Proof. by case: n => k; [exists k | exists (size s - k.+1)]. Qed.

Lemma slice_to_neg (k : nat) s :
  Py.slice_to (Negz k) s ++ drop (size s - k.+1) s = s.
Proof. by rewrite /= cat_take_drop. Qed.

End SliceFacts.

Section SortedFacts.
Variables (d : Order.disp_t) (K : orderType d) (T : Type).
Variable key : T -> K.
Implicit Types (x y z : T) (s : seq T) (k : K).

Local Open Scope order_scope.

Lemma key_le_trans : transitive (key_le key).
Proof. by move=> y x z; rewrite /key_le; exact: le_trans. Qed.

Lemma binsert_path z x s :
  key_le key z x -> path (key_le key) z s ->
  path (key_le key) z (Py.binsert key x s).
Proof.
elim: s z => [|y s IHs] z le_zx /=; first by rewrite le_zx.
case/andP=> le_zy pth_ys.
case: (ltP (key x) (key y)) => [lt_xy|le_yx] /=.
  by rewrite le_zx /key_le (ltW lt_xy) pth_ys.
by rewrite le_zy IHs.
Qed.

Lemma binsert_sorted x s :
  sorted (key_le key) s -> sorted (key_le key) (Py.binsert key x s).
Proof.
case: s => [|y s] //= pth_ys.
case: (ltP (key x) (key y)) => [lt_xy|le_yx] /=.
  by rewrite /key_le (ltW lt_xy) pth_ys.
exact: binsert_path.
Qed.

(* Stability of one insertion: among the elements of key k, the new one
   comes last. *)
Lemma filter_binsert k x s :
  sorted (key_le key) s ->
  filter (has_key key k) (Py.binsert key x s) =
  filter (has_key key k) s ++ filter (has_key key k) [:: x].
Proof.
elim: s => [|y s IHs] //; rewrite [sorted _ _]/= => pth_ys.
rewrite [Py.binsert _ _ _]/=.
case: (ltP (key x) (key y)) => [lt_xy|le_yx]; last first.
  by rewrite /= (IHs (path_sorted pth_ys)) /=; case: (has_key key k y).
rewrite -[x :: y :: s]/([:: x] ++ y :: s) filter_cat.
case kx: (has_key key k x); last by rewrite [filter _ [:: x]]/= kx cats0.
have k_lt_y : k < key y by rewrite -(eqP kx).
have tail_gt : all (fun z => k < key z) (y :: s).
  rewrite /= k_lt_y /=.
  have := order_path_min key_le_trans pth_ys.
  by apply: sub_all => z; exact: lt_le_trans.
have -> : filter (has_key key k) (y :: s) = [::].
  apply: size0nil; rewrite size_filter; apply/eqP.
  rewrite -leqn0 leqNgt -has_count -all_predC.
  apply: sub_all tail_gt => z lt_kz /=.
  by rewrite /has_key eq_sym (lt_eqF lt_kz).
by rewrite cats0.
Qed.

Lemma list_sort_rcons s x :
  Py.list_sort key (rcons s x) = Py.binsert key x (Py.list_sort key s).
Proof. by rewrite /Py.list_sort -cats1 foldl_cat. Qed.

Lemma list_sort_sorted s : sorted (key_le key) (Py.list_sort key s).
Proof.
elim/last_ind: s => [|s x IHs] //.
by rewrite list_sort_rcons binsert_sorted.
Qed.

Lemma filter_list_sort k s :
  filter (has_key key k) (Py.list_sort key s) = filter (has_key key k) s.
Proof.
elim/last_ind: s => [|s x IHs] //.
rewrite list_sort_rcons filter_binsert ?list_sort_sorted // IHs.
by rewrite -cats1 filter_cat.
Qed.

Lemma size_binsert x s : size (Py.binsert key x s) = (size s).+1.
Proof. by elim: s => [|y s IHs] //=; case: ifP => //= _; rewrite IHs. Qed.

Lemma size_list_sort s : size (Py.list_sort key s) = size s.
Proof.
elim/last_ind: s => [|s x IHs] //.
by rewrite list_sort_rcons size_binsert size_rcons IHs.
Qed.

Lemma count_binsert (a : pred T) x s :
  count a (Py.binsert key x s) = (a x + count a s)%N.
Proof.
elim: s => [|y s IHs] //=; case: ifP => //= _.
by rewrite IHs addnCA.
Qed.

Lemma count_list_sort (a : pred T) s :
  count a (Py.list_sort key s) = count a s.
Proof.
elim/last_ind: s => [|s x IHs] //.
by rewrite list_sort_rcons count_binsert IHs -cats1 count_cat /= addn0 addnC.
Qed.

(* sorted(..., reverse=True) *)

Lemma sorted_rev_desc s : sorted (key_ge key) (Py.sorted key true s).
Proof. by rewrite /Py.sorted rev_sorted; exact: list_sort_sorted. Qed.

Lemma sorted_rev_stable k s :
  filter (has_key key k) (Py.sorted key true s) = filter (has_key key k) s.
Proof. by rewrite /Py.sorted filter_rev filter_list_sort filter_rev revK. Qed.

Lemma size_sorted_rev s : size (Py.sorted key true s) = size s.
Proof. by rewrite /Py.sorted size_rev size_list_sort size_rev. Qed.

Lemma count_sorted_rev (a : pred T) s :
  count a (Py.sorted key true s) = count a s.
Proof. by rewrite /Py.sorted count_rev count_list_sort count_rev. Qed.

(* When all keys tie, the input comes back as it is. *)
Lemma sorted_rev_const k s :
  all (has_key key k) s -> Py.sorted key true s = s.
Proof.
move=> all_k; rewrite -[RHS](all_filterP all_k) -sorted_rev_stable.
apply/esym/all_filterP.
by rewrite all_count count_sorted_rev size_sorted_rev -all_count.
Qed.

End SortedFacts.

Section SortedPerm.
Variables (d : Order.disp_t) (K : orderType d) (T : eqType).
Variable key : T -> K.

Lemma perm_sorted_rev (s : seq T) : perm_eq (Py.sorted key true s) s.
Proof.
by apply/permP => a; rewrite count_sorted_rev.
Qed.

End SortedPerm.

(* --------------------------------------------------------------------- *)
(* Facts about predict and recommend                                      *)
(* --------------------------------------------------------------------- *)

(* Running the body of predict down to the calls of the sub-scorers. *)
Ltac run_predict := rewrite /predict /bind /getattr /call /ret /=.

Section HybridFacts.
Variables (User : Type) (Item : eqType) (R : realDomainType) (Exn : Type).
Notation self_t := (HybridRecommendationSystem_Custom User Item R Exn).
Implicit Types (self : self_t) (u : User) (i : Item) (items : seq Item).
Implicit Types (top_n : int) (acc : seq (Item * R)) (w : R * R).
Implicit Types (cf : User -> Item -> outcome Exn (Prediction R)).
Implicit Types (cb : User -> Item -> outcome Exn R).
Implicit Types (cb_m : option (User -> Item -> outcome Exn R)).

Local Open Scope ring_scope.

(* predict hands back the attributes it was given. *)
Lemma predict_self u i self : (predict u i self).2 = self.
Proof.
case: self => [[cf|] [cb|] w]; run_predict => //.
- by case: (cf u i) => [p|e] //=; case: (cb u i).
- by case: (cf u i).
- by case: (cb u i).
Qed.

Lemma predict_eta u i self : predict u i self = ((predict u i self).1, self).
Proof. by rewrite -{3}(predict_self u i self); case: (predict u i self). Qed.

Lemma score_of_return u i self (x : R) :
  (predict u i self).1 = Return x -> score_of self u i = Some x.
Proof. by rewrite /score_of => ->. Qed.

Lemma score_of_raise u i self (e : Exn) :
  (predict u i self).1 = Raise e -> score_of self u i = None.
Proof. by rewrite /score_of => ->. Qed.

(* One turn of the loop appends the pair of a scored candidate and leaves
   the list alone for a candidate whose scoring raised. *)
Lemma try_score_eq u acc i self :
  try_score u acc i self =
  (Return (acc ++ pmap (fun j => omap (pair j) (score_of self u j)) [:: i]),
   self).
Proof.
rewrite /try_score /try_except /bind /ret /score_of /= (predict_eta u i self).
by case: (predict u i self).1 => [x|e] /=; rewrite ?cats1 ?cats0.
Qed.

Lemma for_each_try_score u items acc self :
  for_each items (try_score u) acc self =
  (Return (acc ++ survivors self u items), self).
Proof.
elim: items acc => [|i items IHitems] acc /=; first by rewrite /ret cats0.
rewrite /bind try_score_eq IHitems -catA.
by rewrite /survivors -pmap_cat.
Qed.

Lemma score_candidates_eq u items self :
  score_candidates u items self = (Return (survivors self u items), self).
Proof. by rewrite /score_candidates for_each_try_score. Qed.

Lemma recommend_eq u items top_n self :
  recommend u items top_n self =
  (Return (Py.slice_to top_n
             (Py.sorted (fun x => x.2) true (survivors self u items))),
   self).
Proof. by rewrite /recommend /bind score_candidates_eq. Qed.

Lemma survivors_cat self u items1 items2 :
  survivors self u (items1 ++ items2) =
  survivors self u items1 ++ survivors self u items2.
Proof. exact: pmap_cat. Qed.

Lemma survivors_cons self u i items :
  survivors self u (i :: items) =
  (if score_of self u i is Some x then [:: (i, x)] else [::])
  ++ survivors self u items.
Proof. by rewrite /survivors /=; case: (score_of self u i). Qed.

Lemma size_survivors self u items :
  (size (survivors self u items) <= size items)%N.
Proof. by rewrite /survivors size_pmap count_size. Qed.

(* What predict computes, by configuration. *)
Lemma predict_cf_raise cf cb_m w u i (e : Exn) :
  cf u i = Raise e ->
  predict u i (mkHybrid (Some cf) cb_m w) =
  (Raise e, mkHybrid (Some cf) cb_m w).
Proof. by run_predict => ->. Qed.

Lemma predict_cb_raise cf cb w u i (p : Prediction R) (e : Exn) :
  cf u i = Return p -> cb u i = Raise e ->
  predict u i (mkHybrid (Some cf) (Some cb) w) =
  (Raise e, mkHybrid (Some cf) (Some cb) w).
Proof.
by move=> cf_ok cb_ok; run_predict; rewrite cf_ok /= cb_ok.
Qed.

Lemma predict_cb_only_raise cb w u i (e : Exn) :
  cb u i = Raise e ->
  predict u i (mkHybrid None (Some cb) w) =
  (Raise e, mkHybrid None (Some cb) w).
Proof. by run_predict => ->. Qed.

Lemma predict_both cf cb w u i (p : Prediction R) (x : R) :
  cf u i = Return p -> cb u i = Return x ->
  predict u i (mkHybrid (Some cf) (Some cb) w) =
  (Return (Exn:=Exn) (w.1 * est p + w.2 * x), mkHybrid (Some cf) (Some cb) w).
Proof.
by move=> cf_ok cb_ok; run_predict; rewrite cf_ok /= cb_ok.
Qed.

Lemma predict_cf_only cf w u i (p : Prediction R) :
  cf u i = Return p ->
  predict u i (mkHybrid (Some cf) None w) =
  (Return (Exn:=Exn) (w.1 * est p), mkHybrid (Some cf) None w).
Proof.
by move=> cf_ok; run_predict; rewrite cf_ok /= mulr0 addr0.
Qed.

Lemma predict_cb_only cb w u i (x : R) :
  cb u i = Return x ->
  predict u i (mkHybrid None (Some cb) w) =
  (Return (Exn:=Exn) (w.2 * x), mkHybrid None (Some cb) w).
Proof.
by move=> cb_ok; run_predict; rewrite cb_ok /= mulr0 add0r.
Qed.

Lemma predict_none w u i :
  predict u i (mkHybrid None None w) =
  (Return (Exn:=Exn) 0, mkHybrid (User:=User) (Item:=Item) None None w).
Proof.
by run_predict; rewrite !mulr0 addr0.
Qed.

End HybridFacts.

(* --------------------------------------------------------------------- *)
(* predict                                                                *)
(* --------------------------------------------------------------------- *)

(** C1. When both sub-scorers are configured and both return, predict
    returns w_cf * score_cf + w_cb * score_cb, where score_cf is the est
    of the collaborative prediction. A sub-scorer that is not configured
    contributes 0: with the collaborative sub-scorer alone the result is
    w_cf * score_cf, with the content-based one alone w_cb * score_cb, and
    with neither it is 0. The attributes are handed back unchanged. *)
Theorem predict_weighted_sum
  (User : Type) (Item : eqType) (R : realDomainType) (Exn : Type)
  (cf : User -> Item -> outcome Exn (Prediction R))
  (cb : User -> Item -> outcome Exn R)
  (w_cf w_cb : R) (u : User) (i : Item) (p : Prediction R) (score_cb : R) :
  cf u i = Return p -> cb u i = Return score_cb ->
  [/\ predict u i (mkHybrid (Some cf) (Some cb) (w_cf, w_cb)) =
        (Return (w_cf * est p + w_cb * score_cb)%R,
         mkHybrid (Some cf) (Some cb) (w_cf, w_cb)),
      predict u i (mkHybrid (Some cf) None (w_cf, w_cb)) =
        (Return (w_cf * est p)%R, mkHybrid (Some cf) None (w_cf, w_cb)),
      predict u i (mkHybrid None (Some cb) (w_cf, w_cb)) =
        (Return (w_cb * score_cb)%R, mkHybrid None (Some cb) (w_cf, w_cb))
    & predict u i (mkHybrid None None (w_cf, w_cb)) =
        (Return (Exn:=Exn) 0%R,
         mkHybrid (User:=User) (Item:=Item) None None (w_cf, w_cb))].
Proof.
move=> cf_ok cb_ok; split.
- exact: predict_both.
- exact: predict_cf_only.
- exact: predict_cb_only.
- exact: predict_none.
Qed.

(** C5. A failure of a configured sub-scorer propagates out of predict:
    when the collaborative sub-scorer raises e, predict raises e; when it
    is absent or returns and the content-based sub-scorer raises e,
    predict raises e. Nothing is recovered at this level: predict returns
    a score only if every configured sub-scorer returned one. *)
Theorem predict_propagates
  (User : Type) (Item : eqType) (R : realDomainType) (Exn : Type)
  (self : HybridRecommendationSystem_Custom User Item R Exn)
  (u : User) (i : Item) :
  [/\ forall cf e, cf_model self = Some cf -> cf u i = Raise e ->
        predict u i self = (Raise e, self),
      forall cb e, cb_model self = Some cb -> cb u i = Raise e ->
        (forall cf, cf_model self = Some cf -> exists p, cf u i = Return p) ->
        predict u i self = (Raise e, self)
    & forall x, (predict u i self).1 = Return x ->
        (forall cf, cf_model self = Some cf -> exists p, cf u i = Return p) /\
        (forall cb, cb_model self = Some cb -> exists y, cb u i = Return y)].
Proof.
case: self => cf_m cb_m w /=; split.
- by move=> cf e -> cf_raises; exact: predict_cf_raise.
- move=> cb e -> cb_raises; case: cf_m => [cf|] cf_returns.
    have [p cf_ok] := cf_returns cf erefl.
    exact: predict_cb_raise cf_ok cb_raises.
  exact: predict_cb_only_raise.
- move=> x; run_predict.
  case: cf_m => [cf|]; case: cb_m => [cb|] /=.
  + case cf_ui: (cf u i) => [p|e] //=; case cb_ui: (cb u i) => [y|e] //= _.
    by split=> [_ [<-]|_ [<-]]; [exists p | exists y].
  + case cf_ui: (cf u i) => [p|e] //= _.
    by split=> [_ [<-]|] //; exists p.
  + case cb_ui: (cb u i) => [y|e] //= _.
    by split=> [|_ [<-]] //; exists y.
  + by move=> _; split.
Qed.

(* --------------------------------------------------------------------- *)
(* recommend                                                              *)
(* --------------------------------------------------------------------- *)

Section PrefixFacts.
Variable T : Type.
Implicit Types (a : pred T) (s : seq T) (n : nat).



End PrefixFacts.

Section SurvivorFacts.
Variables (User : Type) (Item : eqType) (R : realDomainType) (Exn : Type).
Notation self_t := (HybridRecommendationSystem_Custom User Item R Exn).
Implicit Types (self : self_t) (u : User) (i : Item) (items : seq Item).

Lemma survivors_raise self u i (e : Exn) items1 items2 :
  (predict u i self).1 = Raise e ->
  survivors self u (items1 ++ i :: items2) =
  survivors self u (items1 ++ items2).
Proof.
move=> raise_i; have no_score := score_of_raise raise_i.
by rewrite !survivors_cat survivors_cons no_score.
Qed.

Lemma survivors_all_raise self u items :
  (forall i, i \in items -> exists e : Exn, (predict u i self).1 = Raise e) ->
  survivors self u items = [::].
Proof.
elim: items => [|i items IHitems] // all_raise.
have [e raise_i] := all_raise i (mem_head i items).
have no_score := score_of_raise raise_i.
rewrite survivors_cons no_score IHitems // => j j_in.
by apply: all_raise; rewrite in_cons j_in orbT.
Qed.



Lemma survivors_none (w : R * R) u items :
  survivors (mkHybrid (Exn:=Exn) None None w) u items =
  [seq (i, 0%R) | i <- items].
Proof.
elim: items => [|i items IHitems] //.
by rewrite survivors_cons IHitems /score_of predict_none.
Qed.

End SurvivorFacts.




(** C8. Neither predict nor recommend changes the attributes of the
    scorer (the weights and the two sub-scorer attributes): each hands
    back the attribute record it received. Hence a second call of
    recommend with the same arguments gives the same outcome as the
    first. *)
Theorem recommend_frame
  (User : Type) (Item : eqType) (R : realDomainType) (Exn : Type)
  (self : HybridRecommendationSystem_Custom User Item R Exn)
  (u : User) (i : Item) (items : seq Item) (top_n : int) :
  [/\ (predict u i self).2 = self,
      (recommend u items top_n self).2 = self
    & recommend u items top_n (recommend u items top_n self).2 =
      recommend u items top_n self].
Proof.
by split; rewrite ?predict_self // !recommend_eq.
Qed.

Section GuardedFacts.
Variables (User : Type) (Item : eqType) (R : realDomainType) (Exn : Type).
Notation self_t :=
  (HybridRecommendationSystem_Custom User Item R (Guarded.raised Exn)).
Implicit Types (self : self_t) (u : User) (i : Item) (items : seq Item).
Implicit Types (top_n : int) (acc : seq (Item * R)).
Implicit Types (b : Guarded.base_exception) (e : Exn).

Lemma escape_not_exception self u i b :
  (predict u i self).1 = Raise (Guarded.NotException b) ->
  Guarded.escape self u i = Some b.
Proof. by rewrite /Guarded.escape => ->. Qed.

Lemma escape_exception self u i e :
  (predict u i self).1 = Raise (Guarded.OfException e) ->
  Guarded.escape self u i = None.
Proof. by rewrite /Guarded.escape => ->. Qed.

Lemma escape_return self u i (x : R) :
  (predict u i self).1 = Return x -> Guarded.escape self u i = None.
Proof. by rewrite /Guarded.escape => ->. Qed.

Lemma escape_none self u i :
  (forall b, (predict u i self).1 <> Raise (Guarded.NotException b)) ->
  Guarded.escape self u i = None.
Proof.
rewrite /Guarded.escape; case: (predict u i self).1 => [x|[e|b]] // no_escape.
by case: (no_escape b).
Qed.

(* One turn of the loop: a value that is not an instance of Exception
   ends it, an instance of Exception leaves the list alone, a score is
   appended. *)
Lemma guarded_try_score_eq u acc i self :
  Guarded.try_score u acc i self =
  if Guarded.escape self u i is Some b
  then (Raise (Guarded.NotException b), self)
  else (Return (acc ++ survivors self u [:: i]), self).
Proof.
rewrite /Guarded.try_score /Guarded.try_except /bind /ret /Guarded.escape.
rewrite survivors_cons /score_of cats0 (predict_eta u i self).
by case: (predict u i self).1 => [x|[e|b]] /=; rewrite ?cats1 ?cats0.
Qed.

Lemma first_escape_cons self u i items :
  Guarded.first_escape self u (i :: items) =
  if Guarded.escape self u i is Some b then Some b
  else Guarded.first_escape self u items.
Proof.
by rewrite /Guarded.first_escape /=; case: (Guarded.escape self u i).
Qed.

Lemma guarded_loop u items acc self :
  for_each items (Guarded.try_score u) acc self =
  if Guarded.first_escape self u items is Some b
  then (Raise (Guarded.NotException b), self)
  else (Return (acc ++ survivors self u items), self).
Proof.
elim: items acc => [|i items IHitems] acc /=; first by rewrite /ret cats0.
rewrite /bind guarded_try_score_eq first_escape_cons.
case: (Guarded.escape self u i) => [b|] //.
rewrite IHitems; case: (Guarded.first_escape self u items) => [b|] //.
by rewrite -catA -survivors_cat.
Qed.

Lemma guarded_recommend_eq u items top_n self :
  Guarded.recommend u items top_n self =
  if Guarded.first_escape self u items is Some b
  then (Raise (Guarded.NotException b), self)
  else (Return (Py.slice_to top_n
                  (Py.sorted snd true (survivors self u items))), self).
Proof.
rewrite /Guarded.recommend /Guarded.score_candidates /bind guarded_loop.
by case: (Guarded.first_escape self u items).
Qed.

Lemma first_escape_none self u items :
  (forall i, i \in items ->
     forall b, (predict u i self).1 <> Raise (Guarded.NotException b)) ->
  Guarded.first_escape self u items = None.
Proof.
elim: items => [|i items IHitems] // no_escape.
have no_escape_i := no_escape i (mem_head i items).
rewrite first_escape_cons (escape_none no_escape_i).
by apply: IHitems => j j_in; apply: no_escape; rewrite in_cons j_in orbT.
Qed.

Lemma first_escape_cat self u items1 items2 :
  Guarded.first_escape self u (items1 ++ items2) =
  if Guarded.first_escape self u items1 is Some b then Some b
  else Guarded.first_escape self u items2.
Proof.
elim: items1 => [|i items1 IHitems] //.
by rewrite cat_cons !first_escape_cons IHitems; case: (Guarded.escape self u i).
Qed.

(* On sub-scorers that raise instances of Exception only, the guarded
   model is the model with the plain handler. *)
Lemma predict_lift (plain : HybridRecommendationSystem_Custom User Item R Exn)
  u i :
  predict u i (Guarded.lift_scorer plain) =
  (Guarded.lift_outcome (predict u i plain).1, Guarded.lift_scorer plain).
Proof.
case: plain => [[cf|] [cb|] w]; run_predict; rewrite /Guarded.lift_scorer //=.
- by case: (cf u i) => [p|e] //=; case: (cb u i).
- by case: (cf u i).
- by case: (cb u i).
Qed.

Lemma recommend_lift (plain : HybridRecommendationSystem_Custom User Item R Exn)
  u items top_n :
  Guarded.recommend u items top_n (Guarded.lift_scorer plain) =
  (Guarded.lift_outcome (recommend u items top_n plain).1,
   Guarded.lift_scorer plain).
Proof.
have score_lift i :
    score_of (Guarded.lift_scorer plain) u i = score_of plain u i.
  by rewrite /score_of predict_lift; case: (predict u i plain).1.
have survivors_lift :
    survivors (Guarded.lift_scorer plain) u items = survivors plain u items.
  by rewrite /survivors; apply: eq_pmap => i; rewrite score_lift.
rewrite guarded_recommend_eq recommend_eq first_escape_none ?survivors_lift //.
by move=> i _ b; rewrite predict_lift; case: (predict u i plain).1.
Qed.

End GuardedFacts.

(** C3. As amended: the handler of recommend is "except Exception". When
    scoring a candidate raises an instance of Exception, the candidate is
    dropped and the loop goes on: the result is the one for the candidate
    list without it, recommend returns a list whenever no scoring raises
    anything else, and that list is empty when the scoring of every
    candidate raises an instance of Exception. A raised value that is not
    an instance of Exception (KeyboardInterrupt, SystemExit) is not
    caught: the first one leaves recommend. In particular, when scoring
    item 7 raises an instance of Exception and items 2 and 4 score 0.9
    and 0.4, recommend on [7, 2, 4] with top_n = 3 returns
    [(2, 0.9), (4, 0.4)]. *)
Theorem recommend_drops_exceptions :
  (forall (User : Type) (Item : eqType) (R : realDomainType) (Exn : Type)
          (self : HybridRecommendationSystem_Custom User Item R
                    (Guarded.raised Exn))
          (u : User),
     [/\ forall items top_n,
           (forall i, i \in items -> forall b,
              (predict u i self).1 <> Raise (Guarded.NotException b)) ->
           Guarded.recommend u items top_n self =
           (Return (Py.slice_to top_n
                      (Py.sorted snd true (survivors self u items))), self),
         forall items1 i items2 top_n (e : Exn),
           (predict u i self).1 = Raise (Guarded.OfException e) ->
           Guarded.recommend u (items1 ++ i :: items2) top_n self =
           Guarded.recommend u (items1 ++ items2) top_n self,
         forall items top_n,
           (forall i, i \in items -> exists e : Exn,
              (predict u i self).1 = Raise (Guarded.OfException e)) ->
           Guarded.recommend u items top_n self = (Return [::], self)
       & forall items1 i items2 top_n b,
           (forall j, j \in items1 -> forall b',
              (predict u j self).1 <> Raise (Guarded.NotException b')) ->
           (predict u i self).1 = Raise (Guarded.NotException b) ->
           Guarded.recommend u (items1 ++ i :: items2) top_n self =
           (Raise (Guarded.NotException b), self)]) /\
  (forall (User Exn : Type)
          (self : HybridRecommendationSystem_Custom User nat rat
                    (Guarded.raised Exn))
          (u : User) (e : Exn),
     (predict u 7 self).1 = Raise (Guarded.OfException e) ->
     (predict u 2 self).1 = Return (9%:Q / 10%:Q)%R ->
     (predict u 4 self).1 = Return (4%:Q / 10%:Q)%R ->
     Guarded.recommend u [:: 7; 2; 4] 3 self =
     (Return [:: (2, (9%:Q / 10%:Q)%R); (4, (4%:Q / 10%:Q)%R)], self)).
Proof.
split=> [User Item R Exn self u|User Exn self u e raise7 return2 return4].
  split=> [items top_n no_escape|items1 i items2 top_n e raise_i
          |items top_n all_raise|items1 i items2 top_n b no_escape raise_i].
  - by rewrite guarded_recommend_eq first_escape_none.
  - rewrite !guarded_recommend_eq !first_escape_cat first_escape_cons.
    by rewrite (escape_exception raise_i) (survivors_raise _ _ raise_i).
  - have no_escape i : i \in items -> forall b,
        (predict u i self).1 <> Raise (Guarded.NotException b).
      by move/all_raise=> [e ->].
    have no_score : survivors self u items = [::].
      apply: survivors_all_raise => i /all_raise [e raise_i].
      by exists (Guarded.OfException e).
    rewrite guarded_recommend_eq (first_escape_none no_escape) no_score.
    by case: top_n.
  - rewrite guarded_recommend_eq first_escape_cat.
    rewrite (first_escape_none no_escape) first_escape_cons.
    by rewrite (escape_not_exception raise_i).
have no_escape : Guarded.first_escape self u [:: 7; 2; 4] = None.
  rewrite !first_escape_cons (escape_exception raise7).
  by rewrite (escape_return return2) (escape_return return4).
rewrite guarded_recommend_eq no_escape.
rewrite !survivors_cons (score_of_raise raise7) (score_of_return return2).
by rewrite (score_of_return return4).
Qed.

(** C6. With neither sub-scorer configured, recommend with a natural
    number N returns the first N candidates in their order, each paired
    with the score 0; for the candidates [5, 3, 9, 1] and top_n = 3 the
    result is [(5, 0), (3, 0), (9, 0)]. *)
Theorem recommend_without_models :
  (forall (User : Type) (Item : eqType) (R : realDomainType) (Exn : Type)
          (w : R * R) (u : User) (items : seq Item) (N : nat),
     recommend u items N (mkHybrid (Exn:=Exn) None None w) =
     (Return [seq (i, 0%R) | i <- take N items], mkHybrid None None w)) /\
  (forall (User : Type) (R : realDomainType) (Exn : Type)
          (w : R * R) (u : User),
     recommend u [:: 5; 3; 9; 1] 3 (mkHybrid (Exn:=Exn) None None w) =
     (Return [:: (5, 0%R); (3, 0%R); (9, 0%R)], mkHybrid None None w)).
Proof.
have first_N (User : Type) (Item : eqType) (R : realDomainType) (Exn : Type)
    (w : R * R) (u : User) (items : seq Item) (N : nat) :
    recommend u items N (mkHybrid (Exn:=Exn) None None w) =
    (Return [seq (i, 0%R) | i <- take N items], mkHybrid None None w).
  rewrite recommend_eq survivors_none (@sorted_rev_const _ _ _ _ 0%R) /=.
    by rewrite all_map; apply/allP => i _; rewrite /has_key /= eqxx.
  by rewrite map_take.
by split=> [|User R Exn w u]; [exact: first_N | rewrite first_N].
Qed.



(* --------------------------------------------------------------------- *)
(* The statements at the concrete configurations                          *)
(* --------------------------------------------------------------------- *)

Lemma predict_weighted_sum_witness :
  let half := (1%:Q / 2%:Q)%R in
  let p := mkPrediction (9%:Q / 10%:Q)%R in
  [/\ Demo.cf Demo.alice 2 = Return p,
      Demo.cb Demo.alice 2 = Return half,
      predict Demo.alice 2 (mkHybrid (Some Demo.cf) (Some Demo.cb) (half, half))
      = (Return (half * est p + half * half)%R,
         mkHybrid (Some Demo.cf) (Some Demo.cb) (half, half))
    & predict Demo.alice 2 (mkHybrid (Some Demo.cf) None (half, half))
      = (Return (half * est p)%R, mkHybrid (Some Demo.cf) None (half, half))].
Proof.
move=> half p.
have [both cf_alone _ _] :=
  @predict_weighted_sum _ _ _ _ Demo.cf Demo.cb half half Demo.alice 2 p half
    erefl erefl.
by split.
Defined.

Lemma predict_propagates_witness :
  let both := mkHybrid (Some Demo.cf) (Some Demo.cb_unknown) (1, 1)%R in
  [/\ Demo.cf Demo.alice 7 = Raise Demo.PredictionError,
      predict Demo.alice 7 Demo.cf_only =
        (Raise Demo.PredictionError, Demo.cf_only),
      Demo.cb_unknown Demo.alice 2 = Raise Demo.PredictionError
    & predict Demo.alice 2 both = (Raise Demo.PredictionError, both)].
Proof.
move=> both.
have [cf_raises _ _] := predict_propagates Demo.cf_only Demo.alice 7.
have [_ cb_raises _] := predict_propagates both Demo.alice 2.
split; [by [] | exact: (cf_raises Demo.cf) | by [] | ].
apply: (cb_raises Demo.cb_unknown) => // cf [<-].
by eexists.
Defined.



Section GuardedDemo.

Local Open Scope ring_scope.

Lemma interrupted_predict_7 :
  (predict Demo.alice 7 Guarded.interrupted).1 =
  Raise (Guarded.NotException Guarded.KeyboardInterrupt).
Proof. by []. Qed.

Lemma interrupted_predict_2 :
  (predict Demo.alice 2 Guarded.interrupted).1 = Return (9%:Q / 10%:Q).
Proof.
rewrite /Guarded.interrupted.
by rewrite (predict_cf_only (p:=mkPrediction _) _ erefl) /= mul1r.
Qed.

Lemma interrupted_predict_4 :
  (predict Demo.alice 4 Guarded.interrupted).1 = Return (4%:Q / 10%:Q).
Proof.
rewrite /Guarded.interrupted.
by rewrite (predict_cf_only (p:=mkPrediction _) _ erefl) /= mul1r.
Qed.

Lemma unknown_predict_7 :
  (predict Demo.alice 7 Guarded.unknown).1 =
  Raise (Guarded.OfException Demo.PredictionError).
Proof. by []. Qed.

Lemma unknown_predict_2 :
  (predict Demo.alice 2 Guarded.unknown).1 = Return (9%:Q / 10%:Q).
Proof.
rewrite /Guarded.unknown.
by rewrite (predict_cf_only (p:=mkPrediction _) _ erefl) /= mul1r.
Qed.

Lemma unknown_predict_4 :
  (predict Demo.alice 4 Guarded.unknown).1 = Return (4%:Q / 10%:Q).
Proof.
rewrite /Guarded.unknown.
by rewrite (predict_cf_only (p:=mkPrediction _) _ erefl) /= mul1r.
Qed.

End GuardedDemo.

Lemma recommend_uncaught_counterexample :
  [/\ (predict Demo.alice 7 Guarded.interrupted).1 =
        Raise (Guarded.NotException Guarded.KeyboardInterrupt),
      (predict Demo.alice 2 Guarded.interrupted).1 =
        Return (9%:Q / 10%:Q)%R,
      (predict Demo.alice 4 Guarded.interrupted).1 =
        Return (4%:Q / 10%:Q)%R,
      Guarded.recommend Demo.alice [:: 7; 2; 4] 3 Guarded.interrupted =
        (Raise (Guarded.NotException Guarded.KeyboardInterrupt),
         Guarded.interrupted)
    & forall out,
        Guarded.recommend Demo.alice [:: 7; 2; 4] 3 Guarded.interrupted <>
        (Return out, Guarded.interrupted)].
Proof.
have raised :
    Guarded.recommend Demo.alice [:: 7; 2; 4] 3 Guarded.interrupted =
    (Raise (Guarded.NotException Guarded.KeyboardInterrupt),
     Guarded.interrupted).
  rewrite guarded_recommend_eq first_escape_cons.
  by rewrite (escape_not_exception interrupted_predict_7).
split; [exact: interrupted_predict_7 | exact: interrupted_predict_2
       | exact: interrupted_predict_4 | exact: raised | ].
by move=> out; rewrite raised.
Qed.

Lemma recommend_drops_exceptions_witness :
  [/\ (predict Demo.alice 7 Guarded.unknown).1 =
        Raise (Guarded.OfException Demo.PredictionError),
      (predict Demo.alice 2 Guarded.unknown).1 = Return (9%:Q / 10%:Q)%R,
      (predict Demo.alice 4 Guarded.unknown).1 = Return (4%:Q / 10%:Q)%R
    & [/\ Guarded.recommend Demo.alice [:: 7; 2; 4] 3 Guarded.unknown =
            (Return [:: (2, (9%:Q / 10%:Q)%R); (4, (4%:Q / 10%:Q)%R)],
             Guarded.unknown),
          Guarded.recommend Demo.alice [:: 7; 2; 4] 3 Guarded.unknown =
            Guarded.recommend Demo.alice [:: 2; 4] 3 Guarded.unknown
        & Guarded.recommend Demo.alice [:: 2; 7; 4] 3 Guarded.interrupted =
            (Raise (Guarded.NotException Guarded.KeyboardInterrupt),
             Guarded.interrupted)]].
Proof.
have [general concrete] := recommend_drops_exceptions.
have [_ dropped _ _] := general _ _ _ _ Guarded.unknown Demo.alice.
have [_ _ _ uncaught] := general _ _ _ _ Guarded.interrupted Demo.alice.
split; [exact: unknown_predict_7 | exact: unknown_predict_2
       | exact: unknown_predict_4 | split].
- exact: (concrete _ _ Guarded.unknown Demo.alice _
            unknown_predict_7 unknown_predict_2 unknown_predict_4).
- exact: (dropped [::] 7 [:: 2; 4] 3 _ unknown_predict_7).
- apply: (uncaught [:: 2] 7 [:: 4] 3 _ _ interrupted_predict_7) => j.
  by rewrite mem_seq1 => /eqP -> b; rewrite interrupted_predict_2.
Defined.




(* --------------------------------------------------------------------- *)
(* Further properties of predict and recommend                            *)
(* --------------------------------------------------------------------- *)

Section ScoreFacts.
Variables (User : Type) (Item : eqType) (R : realDomainType) (Exn : Type).
Notation self_t := (HybridRecommendationSystem_Custom User Item R Exn).
Implicit Types (self : self_t) (u : User) (i : Item) (items : seq Item).
Implicit Types (x y c : R) (w : R * R).

Local Open Scope ring_scope.

Lemma mem_survivors self u items i x :
  ((i, x) \in survivors self u items) =
  (i \in items) && (score_of self u i == Some x).
Proof.
elim: items => [|j items IHitems] //.
rewrite survivors_cons mem_cat IHitems in_cons andb_orl; congr (_ || _).
case: (eqVneq i j) => [->|neq_ij] /=.
  by case: (score_of self u j) => [y|] //; rewrite mem_seq1 xpair_eqE eqxx.
case: (score_of self u j) => [y|] //.
by rewrite mem_seq1 xpair_eqE (negbTE neq_ij).
Qed.

Lemma score_of_some self u i x :
  score_of self u i = Some x -> (predict u i self).1 = Return x.
Proof. by rewrite /score_of; case: (predict u i self).1 => //= y [->]. Qed.

End ScoreFacts.

(** X1. recommend invents nothing: every pair (item, score) it returns has
    its item among the candidates and carries the score that predict
    returns for that item. Conversely, once top_n is at least the number
    of candidates, every candidate that predict scores is in the
    result. *)
Theorem recommend_sound_complete
  (User : Type) (Item : eqType) (R : realDomainType) (Exn : Type)
  (self : HybridRecommendationSystem_Custom User Item R Exn)
  (u : User) (items : seq Item) (top_n : int) (out : seq (Item * R))
  (i : Item) (x : R) :
  recommend u items top_n self = (Return out, self) ->
  ((i, x) \in out -> i \in items /\ (predict u i self).1 = Return x) /\
  (((size items)%:Z <= top_n)%R -> i \in items ->
   (predict u i self).1 = Return x -> (i, x) \in out).
Proof.
rewrite recommend_eq => -[<-]; split.
  have [m ->] := slice_to_prefix top_n
    (Py.sorted snd true (survivors self u items)).
  move/mem_take; rewrite (perm_mem (perm_sorted_rev _ _)) mem_survivors.
  by case/andP=> i_in /eqP score_i; split=> //; exact: score_of_some.
case: top_n => // n; rewrite lez_nat slice_to_nat => all_fit i_in return_i.
have fits : size (Py.sorted snd true (survivors self u items)) <= n.
  by rewrite size_sorted_rev (leq_trans (size_survivors self u items)).
rewrite (take_oversize fits) (perm_mem (perm_sorted_rev _ _)).
by rewrite mem_survivors i_in (score_of_return return_i) eqxx.
Qed.

(** X2. Asking for fewer recommendations gives a prefix of what a larger
    request gives: for natural numbers m <= n, the result for top_n = m
    is the first m entries of the result for top_n = n. *)
Theorem recommend_top_n_prefix
  (User : Type) (Item : eqType) (R : realDomainType) (Exn : Type)
  (self : HybridRecommendationSystem_Custom User Item R Exn)
  (u : User) (items : seq Item) (m n : nat) (out : seq (Item * R)) :
  m <= n ->
  recommend u items n self = (Return out, self) ->
  recommend u items m self = (Return (take m out), self).
Proof.
move=> le_mn; rewrite !recommend_eq !slice_to_nat => -[<-].
by rewrite -take_min (minn_idPl le_mn).
Qed.


(* --------------------------------------------------------------------- *)
(* fit                                                                    *)
(* --------------------------------------------------------------------- *)

(** X6. fit leaves the weights alone and neither configures nor removes a
    sub-scorer. It fits the collaborative sub-scorer first: when that fit
    raises, the exception leaves fit and the content-based sub-scorer is
    not touched. With no sub-scorer configured fit changes nothing. *)
Theorem fit_keeps_configuration
  (User : Type) (Item : eqType) (R : realDomainType) (Exn X : Type)
  (cf_fit : X -> (User -> Item -> outcome Exn (Prediction R)) ->
            outcome Exn unit * (User -> Item -> outcome Exn (Prediction R)))
  (cb_fit : X -> (User -> Item -> outcome Exn R) ->
            outcome Exn unit * (User -> Item -> outcome Exn R))
  (x : X) (self : HybridRecommendationSystem_Custom User Item R Exn) :
  let after := (fit cf_fit cb_fit x self).2 in
  [/\ weights after = weights self,
      isSome (cf_model after) = isSome (cf_model self),
      isSome (cb_model after) = isSome (cb_model self),
      forall m e, cf_model self = Some m -> (cf_fit x m).1 = Raise e ->
        (fit cf_fit cb_fit x self).1 = Raise e /\
        cb_model after = cb_model self
    & cf_model self = None -> cb_model self = None ->
      fit cf_fit cb_fit x self = (Return tt, self)].
Proof.
case: self => [cf_m cb_m w] /=.
rewrite /fit /bind /getattr /ret /fit_cf_model /fit_cb_model /=.
case: cf_m => [cf|]; case: cb_m => [cb|] /=.
- case fit_cf: (cf_fit x cf) => [[[]|e] cf'] /=.
    case fit_cb: (cb_fit x cb) => [[[]|e] cb'] /=.
      by split=> // m e [<-]; rewrite fit_cf.
    by split=> // m e' [<-]; rewrite fit_cf.
  by split=> // m e' [<-]; rewrite fit_cf /= => -[->].
- case fit_cf: (cf_fit x cf) => [[[]|e] cf'] /=.
    by split=> // m e [<-]; rewrite fit_cf.
  by split=> // m e' [<-]; rewrite fit_cf /= => -[->].
- by case fit_cb: (cb_fit x cb) => [[[]|e] cb'] /=; split.
- by split.
Qed.

(* --------------------------------------------------------------------- *)
(* fetch_recommendations                                                  *)
(* --------------------------------------------------------------------- *)

Section MergeFacts.
Variables (F Title Authors : eqType).
Notation catalog := (seq (catalog_row Title Authors)).
Notation row := (rec_row F Title Authors).
Implicit Types (books : catalog) (p : int * F) (rows : seq (int * F)).
Implicit Types (r : row) (i : int).

Notation ids books := [seq book_id b | b <- books].

Lemma matches_cons books i :
  i \in ids books ->
  exists b bs, [seq b <- books | book_id b == i] = b :: bs.
Proof.
elim: books => [|b books IHbooks] //=; rewrite in_cons eq_sym.
case: (book_id b == i) => /=; first by exists b; eexists.
exact: IHbooks.
Qed.

Lemma merge_row_left books p : all (from_left p) (merge_row books p).
Proof.
rewrite /merge_row.
case: [seq b <- books | book_id b == p.1] => [|b bs] /=.
  by rewrite /from_left /= !eqxx.
rewrite /from_left /= !eqxx /= all_map.
by apply: sub_all (all_predT bs) => b' _ /=; rewrite !eqxx.
Qed.

Lemma size_merge_row books p :
  p.1 \in ids books ->
  size (merge_row books p) = count_mem p.1 (ids books).
Proof.
move=> p_in; rewrite count_map -size_filter /merge_row.
have -> : [seq b <- books | preim (@book_id _ _) (pred1 p.1) b] =
          [seq b <- books | book_id b == p.1] by [].
have [b [bs ->]] := matches_cons p_in.
by rewrite size_map.
Qed.

Lemma row_joined_cons b books r :
  row_joined books r -> row_joined (b :: books) r.
Proof. by rewrite /row_joined /= => ->; rewrite orbT. Qed.

Lemma matched_joined books p :
  all (row_joined books)
      [seq mkRecRow p.1 p.2 (Some (title b)) (Some (authors b))
      | b <- books & book_id b == p.1].
Proof.
elim: books => [|b books IHbooks] //=.
have rest : all (row_joined (b :: books))
    [seq mkRecRow p.1 p.2 (Some (title b')) (Some (authors b'))
    | b' <- books & book_id b' == p.1].
  by apply: sub_all IHbooks => r; exact: row_joined_cons.
case: (eqVneq (book_id b) p.1) => [eq_id|_] //=.
by rewrite rest andbT /row_joined /= eq_id !eqxx.
Qed.

Lemma merge_row_joined books p :
  p.1 \in ids books -> all (row_joined books) (merge_row books p).
Proof.
move=> p_in; have := matched_joined books p.
by rewrite /merge_row; have [b [bs ->]] := matches_cons p_in.
Qed.

Lemma merge_left_cons p rows books :
  merge_left (p :: rows) books = merge_row books p ++ merge_left rows books.
Proof. by []. Qed.

Lemma merge_left_joined rows books :
  all (fun p => p.1 \in ids books) rows ->
  all (row_joined books) (merge_left rows books).
Proof.
elim: rows => [|p rows IHrows] //= /andP [p_in rows_in].
by rewrite merge_left_cons all_cat merge_row_joined // IHrows.
Qed.

(* With distinct identifiers in the catalog, the left rows come back one
   by one. *)
Lemma merge_left_uniq rows books :
  uniq (ids books) ->
  all (fun p => p.1 \in ids books) rows ->
  [seq (rec_book_id r, rec_score r) | r <- merge_left rows books] = rows.
Proof.
move=> ids_uniq; elim: rows => [|p rows IHrows] //= /andP [p_in rows_in].
rewrite merge_left_cons map_cat IHrows // -[RHS]cat1s; congr (_ ++ _).
have := size_merge_row p_in; rewrite count_uniq_mem // p_in.
have := merge_row_left books p.
case: (merge_row books p) => [|r [|r' rs]] //=.
rewrite andbT /from_left => /andP [/eqP -> /eqP ->] _.
by rewrite -surjective_pairing.
Qed.

Lemma count_merge_left i rows books :
  all (fun p => p.1 \in ids books) rows ->
  count (fun r => rec_book_id r == i) (merge_left rows books) =
  count (fun p => p.1 == i) rows * count_mem i (ids books).
Proof.
elim: rows => [|p rows IHrows] //= /andP [p_in rows_in].
rewrite merge_left_cons count_cat IHrows // mulnDl; congr (_ + _).
have left := merge_row_left books p.
case: (eqVneq p.1 i) => [eq_pi|neq_pi].
  rewrite mul1n -eq_pi -size_merge_row //.
  apply/eqP; rewrite -all_count.
  by apply: sub_all left => r /andP [].
rewrite mul0n; apply/eqP; rewrite -leqn0 leqNgt -has_count -all_predC.
apply: sub_all left => r /andP [/eqP id_r _] /=.
by rewrite id_r.
Qed.

End MergeFacts.

Section FetchFacts.
Variables (User : Type) (R : realDomainType) (Exn : Type).
Variables (F Title Authors : eqType).
Variable py_float : R -> outcome Exn F.
Notation self_t := (HybridRecommendationSystem_Custom User int R Exn).
Notation catalog := (seq (catalog_row Title Authors)).
Implicit Types (self : self_t) (u : User) (books : catalog) (top_n : int).
Implicit Types (out : seq (int * R)) (rows : seq (int * F)).

Notation ids books := [seq book_id b | b <- books].

Lemma recommend_items self u (items : seq int) top_n out :
  recommend u items top_n self = (Return out, self) ->
  all (fun p => p.1 \in items) out.
Proof.
rewrite recommend_eq => -[<-]; apply/allP => -[i x].
have [m ->] := slice_to_prefix top_n
  (Py.sorted snd true (survivors self u items)).
move/mem_take; rewrite (perm_mem (perm_sorted_rev _ _)) mem_survivors.
by case/andP.
Qed.

(* What the list of row dicts is when no conversion raises. *)
Lemma comprehension_return out rows :
  comprehension (row_dict py_float) out = Return rows ->
  [seq q.1 | q <- rows] = [seq p.1 | p <- out] /\
  [seq Return q.2 | q <- rows] = [seq py_float p.2 | p <- out].
Proof.
elim: out rows => [|p out IHout] rows /=; first by case=> <-.
rewrite /row_dict; case float_p: (py_float p.2) => [x|e] //.
case dicts: (comprehension _ out) => [rows'|e] // [<-] /=.
by have [-> ->] := IHout _ dicts.
Qed.

Lemma comprehension_total out :
  (forall p, p \in out -> exists x, py_float p.2 = Return x) ->
  exists rows, comprehension (row_dict py_float) out = Return rows.
Proof.
elim: out => [|p out IHout] /= converts; first by exists [::].
have [x float_p] := converts p (mem_head p out).
have [|rows ->] := IHout.
  by move=> q q_in; apply: converts; rewrite in_cons q_in orbT.
by rewrite /row_dict float_p; eexists.
Qed.

(* fetch_recommendations once recommend has returned. *)
Lemma fetch_recommendations_eq self u books top_n out :
  recommend u (ids books) top_n self = (Return out, self) ->
  fetch_recommendations py_float u books top_n self =
  match comprehension (row_dict py_float) out with
  | Return rows => (Return (merge_left rows books), self)
  | Raise e => (Raise e, self)
  end.
Proof.
rewrite /fetch_recommendations /bind /ret /call => ->.
by case: out => [|p out] //=; case: (comprehension _ _).
Qed.

Lemma fetch_recommendations_return self u books top_n out frame :
  recommend u (ids books) top_n self = (Return out, self) ->
  fetch_recommendations py_float u books top_n self = (Return frame, self) ->
  exists rows,
    [/\ frame = merge_left rows books,
        [seq q.1 | q <- rows] = [seq p.1 | p <- out],
        [seq Return q.2 | q <- rows] = [seq py_float p.2 | p <- out]
      & all (fun q => q.1 \in ids books) rows].
Proof.
move=> recommend_out; rewrite (fetch_recommendations_eq recommend_out).
case dicts: (comprehension _ out) => [rows|e] // [<-].
have [ids_eq scores_eq] := comprehension_return dicts.
exists rows; split=> //.
have := recommend_items recommend_out.
by rewrite -(all_map fst (fun i => i \in ids books)) -ids_eq all_map.
Qed.

End FetchFacts.

(** X7. For a catalog whose book_id column holds integers: since the
    candidates are that column itself, the left join of
    fetch_recommendations always finds a catalog row. When float(scr)
    returns for every recommended score, fetch_recommendations returns a
    frame in which every row carries the title and the authors of a
    catalog row that has the row's book_id. *)
Theorem fetch_rows_joined
  (User : Type) (R : realDomainType) (Exn : Type) (F Title Authors : eqType)
  (py_float : R -> outcome Exn F)
  (self : HybridRecommendationSystem_Custom User int R Exn)
  (u : User) (books : seq (catalog_row Title Authors))
  (top_n : int) (out : seq (int * R)) :
  recommend u [seq book_id b | b <- books] top_n self = (Return out, self) ->
  (forall p, p \in out -> exists x, py_float p.2 = Return x) ->
  exists2 frame,
    fetch_recommendations py_float u books top_n self = (Return frame, self)
    & all (row_joined books) frame.
Proof.
move=> recommend_out converts.
have [rows dicts] := comprehension_total converts.
exists (merge_left rows books).
  by rewrite (fetch_recommendations_eq py_float recommend_out) dicts.
apply: merge_left_joined.
have [ids_eq _] := comprehension_return dicts.
have := recommend_items recommend_out.
by rewrite -(all_map fst (fun i => i \in _)) -ids_eq all_map.
Qed.

(** X8. For a catalog whose book_id column holds distinct integers, a
    frame that fetch_recommendations returns has exactly one row per
    recommendation, in the order of the ranking: its book_id column is
    the list of the recommended identifiers and its score column holds
    float(scr) of the recommended scores. *)
Theorem fetch_rows_follow_ranking
  (User : Type) (R : realDomainType) (Exn : Type) (F Title Authors : eqType)
  (py_float : R -> outcome Exn F)
  (self : HybridRecommendationSystem_Custom User int R Exn)
  (u : User) (books : seq (catalog_row Title Authors))
  (top_n : int) (out : seq (int * R))
  (frame : seq (rec_row F Title Authors)) :
  uniq [seq book_id b | b <- books] ->
  recommend u [seq book_id b | b <- books] top_n self = (Return out, self) ->
  fetch_recommendations py_float u books top_n self = (Return frame, self) ->
  [seq rec_book_id r | r <- frame] = [seq p.1 | p <- out] /\
  [seq Return (rec_score r) | r <- frame] = [seq py_float p.2 | p <- out].
Proof.
move=> ids_uniq recommend_out returns.
have [rows [-> ids_eq scores_eq rows_in]] :=
  fetch_recommendations_return recommend_out returns.
have columns := merge_left_uniq ids_uniq rows_in.
rewrite -ids_eq -scores_eq -{2 4}columns -!map_comp.
by split; apply: eq_map.
Qed.

(** X9. For a catalog whose book_id column holds integers, in a frame that
    fetch_recommendations returns the number of rows of a book is the
    number of its entries in the list that recommend returns times the
    number of catalog rows that carry its book_id. *)
Theorem fetch_row_count
  (User : Type) (R : realDomainType) (Exn : Type) (F Title Authors : eqType)
  (py_float : R -> outcome Exn F)
  (self : HybridRecommendationSystem_Custom User int R Exn)
  (u : User) (books : seq (catalog_row Title Authors))
  (top_n : int) (out : seq (int * R))
  (frame : seq (rec_row F Title Authors)) (i : int) :
  recommend u [seq book_id b | b <- books] top_n self = (Return out, self) ->
  fetch_recommendations py_float u books top_n self = (Return frame, self) ->
  count (fun r => rec_book_id r == i) frame =
  count (fun p => p.1 == i) out * count_mem i [seq book_id b | b <- books].
Proof.
move=> recommend_out returns.
have [rows [-> ids_eq _ rows_in]] :=
  fetch_recommendations_return recommend_out returns.
rewrite (count_merge_left i rows_in).
by rewrite -(count_map fst (pred1 i)) ids_eq count_map.
Qed.

(* --------------------------------------------------------------------- *)
(* get_recommendations                                                    *)
(* --------------------------------------------------------------------- *)

Section IndexingFacts.
Variable T : Type.
Implicit Types (s : seq T) (i n : nat).

Lemma getitem_nth (x0 : T) s i :
  i < size s -> PySeq.getitem s i = Return (nth x0 s i).
Proof. by elim: s i => [|x s IHs] [|i] //= /IHs. Qed.

Lemma getitem_oversize s i :
  size s <= i -> PySeq.getitem s i = Raise PySeq.IndexError.
Proof. by elim: s i => [|x s IHs] [|i] //= /IHs. Qed.

Lemma getitem_return (x0 : T) s i (x : T) :
  PySeq.getitem s i = Return x -> i < size s /\ nth x0 s i = x.
Proof.
case: (ltnP i (size s)) => [lt_is|le_si].
  by rewrite (getitem_nth x0 lt_is) => -[].
by rewrite getitem_oversize.
Qed.

(* s[1:stop] is a prefix of s without its first element. *)
Lemma slice1_prefix (stop : int) s :
  exists m, PySeq.slice 1 stop s = take m (behead s).
Proof.
exists (PySeq.bound stop (size s)).-1; rewrite /PySeq.slice.
case: s => [|x s] //; rewrite [PySeq.bound 1 _]/= minnSS min0n drop1.
by case: (PySeq.bound stop _) => [|b] /=; rewrite ?take0.
Qed.

Lemma slice1_nat n s : PySeq.slice 1 (Posz n + 1)%R s = take n (behead s).
Proof.
rewrite /PySeq.slice -PoszD addn1.
case: s => [|x s] //; rewrite [PySeq.bound 1 _]/= minnSS min0n drop1.
by rewrite [PySeq.bound _ _]/= minnSS /= take_min take_size.
Qed.

Lemma size_enumerate s : size (PySeq.enumerate s) = size s.
Proof. by rewrite /PySeq.enumerate size_zip size_iota minnn. Qed.

Lemma enumerate_positions s : unzip1 (PySeq.enumerate s) = iota 0 (size s).
Proof. by rewrite /PySeq.enumerate unzip1_zip // size_iota. Qed.

End IndexingFacts.

Section DashboardFacts.
Variables (Book : eqType) (R : realDomainType) (round4 : R -> R).
Implicit Types (pt : seq Book) (row : seq R) (sims : seq (seq R)).
Implicit Types (l : seq (nat * R)) (num : int) (bk : Book).

Local Open Scope ring_scope.

(* The dict built for one entry of similar_books_list, and the sorted
   enumeration of a row of similarities. *)
Notation entry bk pt :=
  (fun p : nat * R => mkSuggestion (nth bk pt p.1) (round4 p.2)).
Notation ranked row := (Py.sorted snd true (PySeq.enumerate row)).

Lemma collect_ok bk pt l acc :
  all (fun p => (p.1 < size pt)%N) l ->
  collect round4 pt l acc = Return (acc ++ map (entry bk pt) l).
Proof.
elim: l acc => [|[j y] l IHl] acc /=; first by rewrite cats0.
case/andP=> lt_j all_l.
by rewrite (getitem_nth bk lt_j) IHl // cat_rcons.
Qed.

Lemma collect_return bk pt l acc recs :
  collect round4 pt l acc = Return recs ->
  all (fun p => (p.1 < size pt)%N) l /\ recs = acc ++ map (entry bk pt) l.
Proof.
elim: l acc => [|[j y] l IHl] acc /=; first by case=> <-; rewrite cats0.
case get_j: (PySeq.getitem pt j) => [b|e] //.
have [lt_j nth_j] := getitem_return bk get_j.
by move/IHl => [all_l ->]; rewrite lt_j cat_rcons /= nth_j.
Qed.

Lemma enumerate_nth row (k : nat) :
  (k < size row)%N ->
  nth (0%N, 0) (PySeq.enumerate row) k = (k, nth 0 row k).
Proof.
move=> lt_k.
by rewrite /PySeq.enumerate nth_zip ?size_iota // nth_iota // add0n.
Qed.

Lemma mem_enumerate row (p : nat * R) :
  p \in PySeq.enumerate row -> (p.1 < size row)%N /\ nth 0 row p.1 = p.2.
Proof.
case/(nthP (0%N, 0)) => k; rewrite size_enumerate => lt_k.
by rewrite enumerate_nth // => <-.
Qed.

Lemma enumerate_mem row (k : nat) :
  (k < size row)%N -> (k, nth 0 row k) \in PySeq.enumerate row.
Proof.
by move=> lt_k; rewrite -enumerate_nth // mem_nth // size_enumerate.
Qed.

Lemma mem_ranked row (p : nat * R) :
  (p \in ranked row) = (p \in PySeq.enumerate row).
Proof. exact: perm_mem (perm_sorted_rev _ _) p. Qed.

Lemma ranked_positions_uniq row : uniq (unzip1 (ranked row)).
Proof.
rewrite (perm_uniq (perm_map _ (perm_sorted_rev _ _))).
by rewrite -/(unzip1 _) enumerate_positions iota_uniq.
Qed.

Lemma slice1_sub (T : eqType) (stop : int) (s : seq T) :
  {subset PySeq.slice 1 stop s <= behead s}.
Proof. by have [m ->] := slice1_prefix stop s; move=> x /mem_take. Qed.

Lemma slice1_positions row num :
  all (fun p => (p.1 < size row)%N) (PySeq.slice 1 (num + 1) (ranked row)).
Proof.
apply/allP => p /slice1_sub/mem_behead.
by rewrite mem_ranked => /mem_enumerate [].
Qed.

(* What a returned list of suggestions is made of. *)
Lemma get_recommendations_return bk book_name pt sims num recs :
  get_recommendations round4 book_name pt sims num = Return (Some recs) ->
  exists row,
    [/\ book_name \in pt,
        PySeq.getitem sims (index book_name pt) = Return row,
        all (fun p => (p.1 < size pt)%N)
            (PySeq.slice 1 (num + 1) (ranked row))
      & recs = map (entry bk pt) (PySeq.slice 1 (num + 1) (ranked row))].
Proof.
rewrite /get_recommendations; case: ifP => // in_pt.
case get_row: (PySeq.getitem sims _) => [row|e] //.
case collected: (collect _ _ _ _) => [recs'|e] // [<-].
by have [all_l ->] := collect_return bk collected; exists row.
Qed.

(* A row no longer than the index always gives a list. *)
Lemma get_recommendations_ok bk book_name pt sims num row :
  book_name \in pt ->
  PySeq.getitem sims (index book_name pt) = Return row ->
  (size row <= size pt)%N ->
  get_recommendations round4 book_name pt sims num =
  Return (Some (map (entry bk pt) (PySeq.slice 1 (num + 1) (ranked row)))).
Proof.
move=> in_pt get_row le_row; rewrite /get_recommendations in_pt get_row.
rewrite (collect_ok bk) //.
apply: sub_all (slice1_positions row num) => p lt_p.
exact: leq_trans lt_p le_row.
Qed.

(* The entry of strictly largest similarity heads the sorted list. *)
Lemma ranked_head row (idx : nat) :
  (idx < size row)%N ->
  (forall j : nat, (j < size row)%N -> j != idx ->
     nth 0 row j < nth 0 row idx) ->
  exists t, ranked row = (idx, nth 0 row idx) :: t.
Proof.
move=> lt_idx strict_max.
have own_in : (idx, nth 0 row idx) \in ranked row.
  by rewrite mem_ranked enumerate_mem.
have := sorted_rev_desc snd (PySeq.enumerate row).
have head_in p t : ranked row = p :: t -> p \in PySeq.enumerate row.
  by move=> ranked_eq; rewrite -mem_ranked ranked_eq mem_head.
case ranked_eq: (ranked row) own_in head_in => [|h t] // own_in head_in.
have [lt_h nth_h] := mem_enumerate (head_in h t erefl).
move=> /= path_ht; exists t; congr (_ :: _).
move: own_in; rewrite in_cons => /orP [/eqP -> //|own_in_t].
have trans_ge : transitive (key_ge (@snd nat R)).
  by move=> y x z; rewrite /key_ge => le_yx le_zy; exact: le_trans le_zy le_yx.
have /allP /(_ _ own_in_t) := order_path_min trans_ge path_ht.
rewrite /key_ge /= -nth_h => le_own.
case: (eqVneq h.1 idx) => [eq_h|neq_h].
  by rewrite [LHS]surjective_pairing -nth_h eq_h.
by have := strict_max _ lt_h neq_h; rewrite ltNge le_own.
Qed.

End DashboardFacts.

(** X10. get_recommendations returns None exactly when the book is not in
    pt.index. For a book of the index whose row is missing from
    similarities the call raises IndexError. *)
Theorem get_recommendations_none
  (Book : eqType) (R : realDomainType) (round4 : R -> R)
  (book_name : Book) (pt_index : seq Book) (similarities : seq (seq R))
  (num_recommendations : int) :
  (get_recommendations round4 book_name pt_index similarities
     num_recommendations = Return None <-> book_name \notin pt_index) /\
  (book_name \in pt_index ->
   size similarities <= index book_name pt_index ->
   get_recommendations round4 book_name pt_index similarities
     num_recommendations = Raise PySeq.IndexError).
Proof.
rewrite /get_recommendations; split; last first.
  by move=> -> /getitem_oversize ->.
case: ifP => [_|_]; last by split.
case: (PySeq.getitem similarities _) => [row|e]; last by split.
by case: (collect _ _ _ _) => [recs|e]; split.
Qed.

(** X11. For a book of the index whose row of similarities is not longer
    than the index, get_recommendations with a natural number n returns
    a list of min(n, len(row) - 1) suggestions. *)
Theorem get_recommendations_size
  (Book : eqType) (R : realDomainType) (round4 : R -> R)
  (book_name : Book) (pt_index : seq Book) (similarities : seq (seq R))
  (row : seq R) (n : nat) :
  book_name \in pt_index ->
  PySeq.getitem similarities (index book_name pt_index) = Return row ->
  size row <= size pt_index ->
  exists2 recs,
    get_recommendations round4 book_name pt_index similarities n =
      Return (Some recs)
    & size recs = minn n (size row).-1.
Proof.
move=> in_pt get_row le_row.
rewrite (get_recommendations_ok round4 book_name n in_pt get_row le_row).
eexists; first by [].
rewrite size_map slice1_nat size_take_min size_behead.
by rewrite size_sorted_rev size_enumerate.
Qed.

(** X12. With distinct names in pt.index, if the similarity of the book
    to itself is strictly larger than every other entry of its row, the
    book is not among its own suggestions. *)
Theorem get_recommendations_excludes_self
  (Book : eqType) (R : realDomainType) (round4 : R -> R)
  (book_name : Book) (pt_index : seq Book) (similarities : seq (seq R))
  (num_recommendations : int) (row : seq R) (recs : seq (suggestion Book R)) :
  let idx := index book_name pt_index in
  uniq pt_index ->
  PySeq.getitem similarities idx = Return row ->
  idx < size row ->
  (forall j, j < size row -> j != idx ->
     (nth 0 row j < nth 0 row idx)%R) ->
  get_recommendations round4 book_name pt_index similarities
    num_recommendations = Return (Some recs) ->
  book_name \notin [seq book r | r <- recs].
Proof.
move=> idx pt_uniq get_row lt_idx strict_max.
move/(get_recommendations_return book_name) => [row' []] in_pt.
rewrite -/idx get_row => -[<-] positions ->.
have [t ranked_eq] := ranked_head lt_idx strict_max.
rewrite -map_comp; apply/mapP => -[p p_in /= name_eq].
have lt_p : p.1 < size pt_index by have /allP /(_ _ p_in) := positions.
have p_in_t : p \in t.
  by have := slice1_sub p_in; rewrite ranked_eq.
have := ranked_positions_uniq row.
rewrite ranked_eq /= => /andP [/negP idx_notin _]; apply: idx_notin.
have -> : idx = p.1.
  apply/eqP; rewrite -(nth_uniq book_name _ lt_p pt_uniq) ?index_mem //.
  by rewrite /idx nth_index // -name_eq.
by apply/mapP; exists p.
Qed.

(** X13. What get_recommendations leaves out is the first entry of the
    ranking, not the book as such: when another entry of the row is
    strictly larger than the similarity of the book to itself and n is at
    least len(row) - 1, the book is among its own suggestions. *)
Theorem get_recommendations_includes_self
  (Book : eqType) (R : realDomainType) (round4 : R -> R)
  (book_name : Book) (pt_index : seq Book) (similarities : seq (seq R))
  (n : nat) (row : seq R) (recs : seq (suggestion Book R)) (j : nat) :
  let idx := index book_name pt_index in
  PySeq.getitem similarities idx = Return row ->
  idx < size row -> j < size row ->
  (nth 0 row idx < nth 0 row j)%R ->
  size row <= n.+1 ->
  get_recommendations round4 book_name pt_index similarities n =
    Return (Some recs) ->
  book_name \in [seq book r | r <- recs].
Proof.
move=> idx get_row lt_idx lt_j outranked enough.
move/(get_recommendations_return book_name) => [row' []] in_pt.
rewrite -/idx get_row => -[<-] positions ->.
have fits : size (behead (Py.sorted snd true (PySeq.enumerate row))) <= n.
  rewrite size_behead size_sorted_rev size_enumerate.
  by rewrite -subn1 leq_subLR add1n.
rewrite slice1_nat (take_oversize fits) -map_comp.
apply/mapP; exists (idx, nth 0 row idx)%R; last by rewrite /= /idx nth_index.
have own_in :
    (idx, nth 0%R row idx) \in Py.sorted snd true (PySeq.enumerate row).
  by rewrite mem_ranked enumerate_mem.
have other_in :
    (j, nth 0%R row j) \in Py.sorted snd true (PySeq.enumerate row).
  by rewrite mem_ranked enumerate_mem.
have := sorted_rev_desc snd (PySeq.enumerate row).
case: (Py.sorted snd true _) own_in other_in => [|h t] //=.
rewrite !in_cons => /orP [/eqP own_h|] //; rewrite -own_h.
move=> other_in path_t.
have trans_ge : transitive (key_ge (@snd nat R)).
  by move=> y x z; rewrite /key_ge => le_yx le_zy; exact: le_trans le_zy le_yx.
have le_other : (nth 0 row j <= nth 0 row idx)%R.
  case/orP: other_in => [/eqP [_ ->] //|other_in_t].
  by have /allP /(_ _ other_in_t) := order_path_min trans_ge path_t.
by move: outranked; rewrite ltNge le_other.
Qed.

(** X14. When round(., 4) is monotone, the suggestions are listed by
    descending similarity. *)
Theorem get_recommendations_descending
  (Book : eqType) (R : realDomainType) (round4 : R -> R)
  (book_name : Book) (pt_index : seq Book) (similarities : seq (seq R))
  (num_recommendations : int) (recs : seq (suggestion Book R)) :
  {homo round4 : x y / (x <= y)%R} ->
  get_recommendations round4 book_name pt_index similarities
    num_recommendations = Return (Some recs) ->
  sorted (fun r r' => (similarity r' <= similarity r)%R) recs.
Proof.
move=> round_mono.
move/(get_recommendations_return book_name) => [row [_ _ _ ->]].
rewrite sorted_map.
have [m ->] := slice1_prefix (num_recommendations + 1)%R
  (Py.sorted snd true (PySeq.enumerate row)).
apply: take_sorted; rewrite -drop1; apply: drop_sorted.
apply: sub_sorted (sorted_rev_desc snd (PySeq.enumerate row)).
by move=> p q /=; rewrite /key_ge; exact: round_mono.
Qed.

(** X15. Every suggested book is a book of pt.index, and with distinct
    names in pt.index no book is suggested twice. *)
Theorem get_recommendations_distinct
  (Book : eqType) (R : realDomainType) (round4 : R -> R)
  (book_name : Book) (pt_index : seq Book) (similarities : seq (seq R))
  (num_recommendations : int) (recs : seq (suggestion Book R)) :
  get_recommendations round4 book_name pt_index similarities
    num_recommendations = Return (Some recs) ->
  all (fun r => book r \in pt_index) recs /\
  (uniq pt_index -> uniq [seq book r | r <- recs]).
Proof.
move/(get_recommendations_return book_name) => [row [_ _ positions ->]].
split.
  rewrite all_map; apply: sub_all positions => p lt_p /=.
  exact: mem_nth.
move=> pt_uniq; rewrite -map_comp.
set l := PySeq.slice 1 _ _ in positions *.
have inj_nth : {in map fst l &, injective (nth book_name pt_index)}.
  move=> i k /mapP [p p_in ->] /mapP [q q_in ->] /eqP.
  have /allP all_lt := positions.
  by rewrite nth_uniq ?all_lt // => /eqP.
rewrite (map_comp (nth book_name pt_index) fst) (map_inj_in_uniq inj_nth).
rewrite /l; have [m ->] := slice1_prefix (num_recommendations + 1)%R
  (Py.sorted snd true (PySeq.enumerate row)).
rewrite map_take take_uniq // -drop1 map_drop drop_uniq //.
exact: ranked_positions_uniq.
Qed.

(* --------------------------------------------------------------------- *)
(* The further properties at the concrete data                            *)
(* --------------------------------------------------------------------- *)

Lemma recommend_sound_complete_witness :
  let out := [:: (3, Posz 3); (2, Posz 2)] in
  [/\ recommend Demo.alice [:: 1; 2; 3] 2 Demo.by_number =
        (Return out, Demo.by_number),
      (3, Posz 3) \in out, 3 \in [:: 1; 2; 3]
    & (predict Demo.alice 3 Demo.by_number).1 = Return (Posz 3)].
Proof.
move=> out.
have [sound _] :=
  @recommend_sound_complete _ _ _ _ Demo.by_number Demo.alice [:: 1; 2; 3] 2
    out 3 (Posz 3) erefl.
by have [in_items returns] := sound isT.
Defined.

Lemma recommend_top_n_prefix_witness :
  let out := [:: (3, Posz 3); (2, Posz 2)] in
  [/\ 1 <= 2,
      recommend Demo.alice [:: 1; 2; 3] 2 Demo.by_number =
        (Return out, Demo.by_number)
    & recommend Demo.alice [:: 1; 2; 3] 1 Demo.by_number =
        (Return (take 1 out), Demo.by_number)].
Proof.
move=> out; split; [by [] | by [] | ].
exact: (@recommend_top_n_prefix _ _ _ _ Demo.by_number Demo.alice
          [:: 1; 2; 3] 1 2 out isT erefl).
Defined.


Lemma fit_keeps_configuration_witness :
  let both := mkHybrid (Some Demo.cf) (Some Demo.cb) (1, 1)%R in
  let fit_both :=
    fit (@Shelf.fit_raises _) (@Shelf.fit_ok _) tt both in
  [/\ cf_model both = Some Demo.cf,
      (Shelf.fit_raises tt Demo.cf).1 = Raise Demo.PredictionError,
      fit_both.1 = Raise Demo.PredictionError
    & cb_model fit_both.2 = cb_model both].
Proof.
move=> both fit_both.
have [_ _ _ cf_raises _] :=
  @fit_keeps_configuration _ _ _ _ _ (@Shelf.fit_raises _) (@Shelf.fit_ok _)
    tt both.
have [raises untouched] := cf_raises Demo.cf Demo.PredictionError erefl erefl.
by split.
Defined.

Lemma fetch_rows_joined_witness :
  let out := [:: (Posz 3, Posz 3); (Posz 2, Posz 2)] in
  [/\ recommend Demo.alice [seq book_id b | b <- Shelf.books] 2 Shelf.by_id =
        (Return out, Shelf.by_id),
      forall p, p \in out -> exists x, Shelf.float_of_int p.2 = Return x
    & exists2 frame,
        fetch_recommendations Shelf.float_of_int Demo.alice Shelf.books 2
          Shelf.by_id = (Return frame, Shelf.by_id)
        & all (row_joined Shelf.books) frame].
Proof.
move=> out.
have converts p : p \in out -> exists x, Shelf.float_of_int p.2 = Return x.
  by move=> _; eexists.
split; [by [] | exact: converts | ].
exact: (@fetch_rows_joined _ _ _ _ _ _ Shelf.float_of_int Shelf.by_id
          Demo.alice Shelf.books 2 out erefl converts).
Defined.

Lemma fetch_rows_follow_ranking_witness :
  let out := [:: (Posz 3, Posz 3); (Posz 2, Posz 2)] in
  let frame :=
    [:: mkRecRow 3 (3%:Q)%R (Some 13) (Some 23);
        mkRecRow 2 (2%:Q)%R (Some 12) (Some 22)] in
  [/\ uniq [seq book_id b | b <- Shelf.books],
      recommend Demo.alice [seq book_id b | b <- Shelf.books] 2 Shelf.by_id =
        (Return out, Shelf.by_id),
      fetch_recommendations Shelf.float_of_int Demo.alice Shelf.books 2
        Shelf.by_id = (Return frame, Shelf.by_id)
    & [seq rec_book_id r | r <- frame] = [seq p.1 | p <- out] /\
      [seq Return (rec_score r) | r <- frame] =
      [seq Shelf.float_of_int p.2 | p <- out]].
Proof.
move=> out frame.
have returns :
    fetch_recommendations Shelf.float_of_int Demo.alice Shelf.books 2
      Shelf.by_id = (Return frame, Shelf.by_id).
  by [].
split; [by [] | by [] | exact: returns | ].
exact: (@fetch_rows_follow_ranking _ _ _ _ _ _ Shelf.float_of_int Shelf.by_id
          Demo.alice Shelf.books 2 out frame isT erefl returns).
Defined.

Lemma fetch_row_count_witness :
  let out := [:: (Posz 2, Posz 2); (Posz 1, Posz 1); (Posz 1, Posz 1)] in
  let frame :=
    [:: mkRecRow 2 (2%:Q)%R (Some 12) (Some 22);
        mkRecRow 1 (1%:Q)%R (Some 11) (Some 21);
        mkRecRow 1 (1%:Q)%R (Some 13) (Some 23);
        mkRecRow 1 (1%:Q)%R (Some 11) (Some 21);
        mkRecRow 1 (1%:Q)%R (Some 13) (Some 23)] in
  [/\ recommend Demo.alice [seq book_id b | b <- Shelf.books_twice] 3
        Shelf.by_id = (Return out, Shelf.by_id),
      fetch_recommendations Shelf.float_of_int Demo.alice Shelf.books_twice 3
        Shelf.by_id = (Return frame, Shelf.by_id)
    & count (fun r => rec_book_id r == 1) frame = 4].
Proof.
move=> out frame.
have returns :
    fetch_recommendations Shelf.float_of_int Demo.alice Shelf.books_twice 3
      Shelf.by_id = (Return frame, Shelf.by_id).
  by [].
split; [by [] | exact: returns | ].
exact: (@fetch_row_count _ _ _ _ _ _ Shelf.float_of_int Shelf.by_id
          Demo.alice Shelf.books_twice 3 out frame 1 erefl returns).
Defined.

Lemma get_recommendations_none_witness :
  [/\ 5 \notin Shelf.pt_index,
      get_recommendations id 5 Shelf.pt_index Shelf.similarities 10 =
        Return None,
      2 \in Shelf.pt_index,
      size [:: [:: Posz 10]] <= index 2 Shelf.pt_index
    & get_recommendations id 2 Shelf.pt_index [:: [:: Posz 10]] 10 =
        Raise PySeq.IndexError].
Proof.
have [unknown _] :=
  @get_recommendations_none _ _ id 5 Shelf.pt_index Shelf.similarities 10.
have [_ missing_row] :=
  @get_recommendations_none _ _ id 2 Shelf.pt_index [:: [:: Posz 10]] 10.
split; [by [] | exact/unknown | by [] | by [] | exact: missing_row].
Defined.

Lemma get_recommendations_size_witness :
  let row := [:: Posz 3; Posz 10; Posz 5] in
  [/\ 1 \in Shelf.pt_index,
      PySeq.getitem Shelf.similarities (index 1 Shelf.pt_index) = Return row,
      size row <= size Shelf.pt_index
    & exists2 recs,
        get_recommendations id 1 Shelf.pt_index Shelf.similarities 1 =
        Return (Some recs)
        & size recs = 1].
Proof.
move=> row; split; [by [] | by [] | by [] | ].
exact: (@get_recommendations_size _ _ id 1 Shelf.pt_index Shelf.similarities
          row 1 isT erefl isT).
Defined.

Lemma get_recommendations_excludes_self_witness :
  let row := [:: Posz 3; Posz 10; Posz 5] in
  let recs := [:: mkSuggestion 2 (Posz 5); mkSuggestion 0 (Posz 3)] in
  [/\ uniq Shelf.pt_index,
      PySeq.getitem Shelf.similarities (index 1 Shelf.pt_index) = Return row,
      forall j, j < size row -> j != index 1 Shelf.pt_index ->
        (nth 0 row j < nth 0 row (index 1 Shelf.pt_index))%R,
      get_recommendations id 1 Shelf.pt_index Shelf.similarities 10 =
        Return (Some recs)
    & 1 \notin [seq book r | r <- recs]].
Proof.
move=> row recs.
have strict_max j : j < size row -> j != index 1 Shelf.pt_index ->
    (nth 0 row j < nth 0 row (index 1 Shelf.pt_index))%R.
  by case: j => [|[|[|j]]].
split; [by [] | by [] | exact: strict_max | by [] | ].
exact: (@get_recommendations_excludes_self _ _ id 1 Shelf.pt_index
          Shelf.similarities 10 row recs isT erefl isT strict_max erefl).
Defined.

Lemma get_recommendations_includes_self_witness :
  let row := [:: Posz 12; Posz 10; Posz 5] in
  let recs := [:: mkSuggestion 1 (Posz 10); mkSuggestion 2 (Posz 5)] in
  [/\ PySeq.getitem Shelf.outranked (index 1 Shelf.pt_index) = Return row,
      (nth 0 row (index 1 Shelf.pt_index) < nth 0 row 0)%R,
      size row <= 3,
      get_recommendations id 1 Shelf.pt_index Shelf.outranked 2 =
        Return (Some recs)
    & 1 \in [seq book r | r <- recs]].
Proof.
move=> row recs; split; [by [] | by [] | by [] | by [] | ].
exact: (@get_recommendations_includes_self _ _ id 1 Shelf.pt_index
          Shelf.outranked 2 row recs 0 erefl isT isT isT isT erefl).
Defined.

Lemma get_recommendations_descending_witness :
  let recs := [:: mkSuggestion 2 (Posz 5); mkSuggestion 0 (Posz 3)] in
  [/\ {homo (@id int) : x y / (x <= y)%R},
      get_recommendations id 1 Shelf.pt_index Shelf.similarities 10 =
        Return (Some recs)
    & sorted (fun r r' => (similarity r' <= similarity r)%R) recs].
Proof.
move=> recs.
have id_mono : {homo (@id int) : x y / (x <= y)%R} by [].
split; [exact: id_mono | by [] | ].
exact: (@get_recommendations_descending _ _ id 1 Shelf.pt_index
          Shelf.similarities 10 recs id_mono erefl).
Defined.

Lemma get_recommendations_distinct_witness :
  let recs := [:: mkSuggestion 2 (Posz 5); mkSuggestion 0 (Posz 3)] in
  [/\ get_recommendations id 1 Shelf.pt_index Shelf.similarities 10 =
        Return (Some recs),
      uniq Shelf.pt_index,
      all (fun r => book r \in Shelf.pt_index) recs
    & uniq [seq book r | r <- recs]].
Proof.
move=> recs.
have [from_index distinct] :=
  @get_recommendations_distinct _ _ id 1 Shelf.pt_index Shelf.similarities 10
    recs erefl.
split; [by [] | by [] | exact: from_index | exact: distinct].
Defined.
